(** * Client cache consistency engine: data-shape strategies and cache managers

    A shallow embedding of [cacheManager.ts] ([OptimisticCacheManager]) and
    [entityCacheManager.ts] ([EntityCacheManager]) together with the three
    data-shape strategies both files define ([PaginatedStrategy],
    [SimpleListStrategy], [ArrayStrategy]).  The two files carry the same
    strategy code; one embedding serves both. *)

From Stdlib Require Import ZArith SpecFloat.
From stdpp Require Import gmap strings list pretty.

Local Open Scope Z_scope.

(** ** JavaScript values *)

Module Js.

(** Values an entity field or an identity can hold.  Numbers are IEEE 754
    doubles in the representation of [SpecFloat]; [JRef] is the address of
    a heap object (nested object, array, function), which the cache code
    only ever passes around. *)
Inductive JsValue : Type :=
| JUndefined
| JNull
| JBool (b : bool)
| JNumber (x : spec_float)
| JString (s : string)
| JRef (addr : N).

(** [a === b]: no coercion; [NaN] differs from itself, [+0] equals [-0],
    objects are compared by address. *)
Definition strict_eq (a b : JsValue) : bool :=
  match a, b with
  | JUndefined, JUndefined => true
  | JNull, JNull => true
  | JBool x, JBool y => Bool.eqb x y
  | JNumber x, JNumber y => SFeqb x y
  | JString x, JString y => String.eqb x y
  | JRef x, JRef y => N.eqb x y
  | _, _ => false
  end.

(** [ToBoolean], as applied by [if (v)], [!v] and [a && b]. *)
Definition truthy (v : JsValue) : bool :=
  match v with
  | JUndefined | JNull => false
  | JBool b => b
  | JNumber (S754_zero _) | JNumber S754_nan => false
  | JNumber _ => true
  | JString s => negb (String.eqb s "")
  | JRef _ => true
  end.

(** Number literals used below. *)
Definition num_NaN : JsValue := JNumber S754_nan.
Definition num_zero : JsValue := JNumber (S754_zero false).
Definition num_pos (m : positive) : JsValue := JNumber (S754_finite false m 0).

(** A number that holds an integer, such as a counter, is written as that
    integer.  Every integer of magnitude up to 2^53 is a double; a sum or
    a difference beyond that is rounded to the nearest double, ties going
    to the even significand, as [+] and [-] do. *)
Definition round_to_double (z : Z) : Z :=
  let a := Z.abs z in
  if a <=? 2 ^ 53 then z
  else
    let e := Z.log2 a - 52 in
    let q := Z.shiftr a e in
    let r := Z.land a (Z.ones e) in
    let half := 2 ^ (e - 1) in
    let q' := if r <? half then q
              else if half <? r then q + 1
              else if Z.even q then q else q + 1 in
    Z.sgn z * (q' * 2 ^ e).

(** [x + y] and [x - y] on such numbers. *)
Definition number_add (x y : Z) : Z := round_to_double (x + y).
Definition number_sub (x y : Z) : Z := round_to_double (x - y).

(** An object with string keys, [Record<string, unknown>]. *)
Abbreviation JsObject := (gmap string JsValue).

(** [o[key]]: a missing property reads as [undefined]. *)
Definition get (o : JsObject) (key : string) : JsValue :=
  default JUndefined (o !! key).

(** [Array.prototype.findIndex]: the first index whose element satisfies
    the predicate, [-1] when there is none. *)
Fixpoint findIndex {A : Type} (p : A -> bool) (l : list A) : Z :=
  match l with
  | [] => -1
  | x :: rest =>
      if p x then 0
      else let i := findIndex p rest in if i <? 0 then -1 else i + 1
  end.

(** Thrown values. *)
Inductive JsError : Type :=
| TypeError (message : string)
| Error (message : string).

(** Completion of a call: a value or a thrown error. *)
Inductive Result (A : Type) : Type :=
| Ok (a : A)
| Throw (e : JsError).
Global Arguments Ok {A} a.
Global Arguments Throw {A} e.

End Js.
Export Js.

(** ** Data model *)

(** An entity [T]: an object whose identity lives in one of its fields. *)
Abbreviation Entity := (gmap string JsValue).

Inductive Position : Type := START | END.

(** [pagination: { total: number; [key: string]: unknown }].  [total] is a
    count of entities: a number that holds an integer, written as that
    integer.  The strategies compute on it with [number_add] and
    [number_sub], which round as the doubles of the code do, so that
    [total + 1] at 2^53 is 2^53; [Math.max] is [Z.max] and an array length
    is exact.  The remaining fields ([page], [limit], [totalPages], ...)
    are carried along by the object spread. *)
Record Pagination : Type := mkPagination {
  total : Z;
  pagination_rest : gmap string JsValue
}.

(** [{ ...pagination, total: t }] *)
Definition with_total (p : Pagination) (t : Z) : Pagination :=
  {| total := t; pagination_rest := pagination_rest p |}.

(** [PaginatedData<T>].  The interface declares [data] and [pagination];
    an object read from the store may own more fields ([__typename], ...),
    kept here in [paginated_rest].  The paginated strategies build their
    result as a fresh [{ data, pagination }], which owns no other field. *)
Record PaginatedData : Type := mkPaginated {
  data : list Entity;
  pagination : Pagination;
  paginated_rest : gmap string JsValue
}.

(** [{ data: T[]; [key: string]: unknown }] *)
Record SimpleListData : Type := mkSimpleList {
  list_data : list Entity;
  list_rest : gmap string JsValue
}.

(** [{ ...existingData, data: d }] *)
Definition with_data (s : SimpleListData) (d : list Entity) : SimpleListData :=
  {| list_data := d; list_rest := list_rest s |}.

(** [QueryData<T> = PaginatedData<T> | SimpleListData<T> | T[]] *)
Inductive QueryData : Type :=
| Paginated (p : PaginatedData)
| SimpleList (s : SimpleListData)
| RawArray (a : list Entity).

(** [position: Position = Position.START]: an omitted argument takes the
    default. *)
Definition position_or_default (position : option Position) : Position :=
  default START position.

(** [position === 'start' ? [item, ...xs] : [...xs, item]] *)
Definition insert_at (position : option Position) (item : Entity)
    (xs : list Entity) : list Entity :=
  match position_or_default position with
  | START => item :: xs
  | END => xs ++ [item]
  end.

(** [existing[idField] === item[idField]] *)
Definition same_identity (idField : string) (item existing : Entity) : bool :=
  strict_eq (get existing idField) (get item idField).

(** [item[idField] !== id] *)
Definition other_identity (idField : string) (id : JsValue) (item : Entity) : bool :=
  negb (strict_eq (get item idField) id).

(** [xs.map(existing => existing[idField] === item[idField] ? item : existing)] *)
Definition replace_matching (idField : string) (item : Entity)
    (xs : list Entity) : list Entity :=
  List.map (fun existing => if same_identity idField item existing then item else existing) xs.

(** [xs.filter(item => item[idField] !== id)] *)
Definition without_identity (idField : string) (id : JsValue)
    (xs : list Entity) : list Entity :=
  List.filter (other_identity idField id) xs.

(** ** The three strategies *)

Module PaginatedStrategy.

Definition add (existingData : PaginatedData) (item : Entity)
    (position : option Position) : PaginatedData :=
  let newData := insert_at position item (data existingData) in
  {| data := newData;
     pagination := with_total (pagination existingData)
                              (number_add (total (pagination existingData)) 1);
     paginated_rest := ∅ |}.

Definition update (existingData : PaginatedData) (item : Entity)
    (idField : string) : PaginatedData :=
  {| data := replace_matching idField item (data existingData);
     pagination := pagination existingData;
     paginated_rest := ∅ |}.

Definition remove (existingData : PaginatedData) (id : JsValue)
    (idField : string) : PaginatedData :=
  {| data := without_identity idField id (data existingData);
     pagination := with_total (pagination existingData)
                              (Z.max 0 (number_sub (total (pagination existingData)) 1));
     paginated_rest := ∅ |}.

Definition replace (existingData : PaginatedData) (items : list Entity) : PaginatedData :=
  {| data := items;
     pagination := with_total (pagination existingData) (Z.of_nat (length items));
     paginated_rest := ∅ |}.

Definition upsert (existingData : PaginatedData) (item : Entity)
    (idField : string) : PaginatedData :=
  let existingIndex := findIndex (same_identity idField item) (data existingData) in
  if existingIndex >=? 0 then update existingData item idField
  else add existingData item None.

End PaginatedStrategy.

Module SimpleListStrategy.

Definition add (existingData : SimpleListData) (item : Entity)
    (position : option Position) : SimpleListData :=
  let newData := insert_at position item (list_data existingData) in
  with_data existingData newData.

Definition update (existingData : SimpleListData) (item : Entity)
    (idField : string) : SimpleListData :=
  with_data existingData (replace_matching idField item (list_data existingData)).

Definition remove (existingData : SimpleListData) (id : JsValue)
    (idField : string) : SimpleListData :=
  with_data existingData (without_identity idField id (list_data existingData)).

Definition replace (existingData : SimpleListData) (items : list Entity) : SimpleListData :=
  with_data existingData items.

Definition upsert (existingData : SimpleListData) (item : Entity)
    (idField : string) : SimpleListData :=
  let existingIndex := findIndex (same_identity idField item) (list_data existingData) in
  if existingIndex >=? 0 then update existingData item idField
  else add existingData item None.

End SimpleListStrategy.

Module ArrayStrategy.

Definition add (existingData : list Entity) (item : Entity)
    (position : option Position) : list Entity :=
  insert_at position item existingData.

Definition update (existingData : list Entity) (item : Entity)
    (idField : string) : list Entity :=
  replace_matching idField item existingData.

Definition remove (existingData : list Entity) (id : JsValue)
    (idField : string) : list Entity :=
  without_identity idField id existingData.

Definition replace (_existingData : list Entity) (items : list Entity) : list Entity :=
  items.

Definition upsert (existingData : list Entity) (item : Entity)
    (idField : string) : list Entity :=
  let existingIndex := findIndex (same_identity idField item) existingData in
  if existingIndex >=? 0 then update existingData item idField
  else add existingData item None.

End ArrayStrategy.

(** ** Configuration and operations *)

(** [enum DataStructure]: at run time a configuration carries the string. *)
Module DataStructure.
Definition PAGINATED : string := "paginated".
Definition SIMPLE_LIST : string := "simpleList".
Definition ARRAY : string := "array".
End DataStructure.

(** A parsed GraphQL document, named by its source text. *)
Abbreviation DocumentNode := string.

(** [CacheConfig<T>] of [cacheManager.ts], which is [EntityConfig<T>] of
    [entityCacheManager.ts] field for field. *)
Module CacheConfig.
Record t : Type := mk {
  query : DocumentNode;
  variables : option (gmap string JsValue);
  queryResultKey : option string;
  dataStructure : string;
  entityName : option string;
  idField : option string
}.
End CacheConfig.
Abbreviation CacheConfig := CacheConfig.t.
Abbreviation EntityConfig := CacheConfig.t.

(** [s !== undefined && s.length > 0]; for a string-or-undefined value this
    is also the truthiness test [if (s)]. *)
Definition non_empty (s : option string) : option string :=
  match s with
  | Some k => if String.eqb k "" then None else Some k
  | None => None
  end.

(** The three strategy instances a manager can be bound to. *)
Inductive Strategy : Type :=
| paginatedStrategy
| simpleListStrategy
| arrayStrategy.

(** The [switch (config.dataStructure)] of both managers; [None] is the
    [default:] branch. *)
Definition select_strategy (dataStructure : string) : option Strategy :=
  if String.eqb dataStructure DataStructure.PAGINATED then Some paginatedStrategy
  else if String.eqb dataStructure DataStructure.SIMPLE_LIST then Some simpleListStrategy
  else if String.eqb dataStructure DataStructure.ARRAY then Some arrayStrategy
  else None.

Definition unsupported (dataStructure : string) : JsError :=
  Error ("Unsupported data structure: " +:+ dataStructure).

(** A call through the [CacheStrategy<T>] interface. *)
Inductive StrategyCall : Type :=
| CallAdd (item : Entity) (position : option Position)
| CallUpdate (item : Entity) (idField : string)
| CallRemove (id : JsValue) (idField : string)
| CallReplace (items : list Entity)
| CallUpsert (item : Entity) (idField : string).

(** The root object of a query result, [Record<string, QueryData<T>>]. *)
Abbreviation CacheData := (gmap string QueryData).

(** What TypeScript's unchecked casts let through.  The managers cast the
    root object to entity data and back when no result key is configured
    ([cacheData as unknown as QueryData<T>]), and hand whatever the store
    returned to the bound strategy ([existingData as EntityData<T>]).  When
    the value does not have the shape the strategy was written for, the
    outcome (a [TypeError] for most calls, a malformed value for some) is
    left to the run time; every theorem below holds whatever it is. *)
Class JsRuntime : Type := {
  asQueryData : CacheData -> QueryData;
  asCacheData : QueryData -> CacheData;
  illShaped : Strategy -> StrategyCall -> QueryData -> Result QueryData
}.

(** [strategy.add(...)], ..., [strategy.upsert(...)] on a bound strategy. *)
Module CacheStrategy.
Section Dispatch.
Context `{JsRuntime}.

Definition run (strategy : Strategy) (call : StrategyCall)
    (existingData : QueryData) : Result QueryData :=
  match strategy, existingData, call with
  | paginatedStrategy, Paginated p, CallAdd item position =>
      Ok (Paginated (PaginatedStrategy.add p item position))
  | paginatedStrategy, Paginated p, CallUpdate item idField =>
      Ok (Paginated (PaginatedStrategy.update p item idField))
  | paginatedStrategy, Paginated p, CallRemove id idField =>
      Ok (Paginated (PaginatedStrategy.remove p id idField))
  | paginatedStrategy, Paginated p, CallReplace items =>
      Ok (Paginated (PaginatedStrategy.replace p items))
  | paginatedStrategy, Paginated p, CallUpsert item idField =>
      Ok (Paginated (PaginatedStrategy.upsert p item idField))
  | simpleListStrategy, SimpleList s, CallAdd item position =>
      Ok (SimpleList (SimpleListStrategy.add s item position))
  | simpleListStrategy, SimpleList s, CallUpdate item idField =>
      Ok (SimpleList (SimpleListStrategy.update s item idField))
  | simpleListStrategy, SimpleList s, CallRemove id idField =>
      Ok (SimpleList (SimpleListStrategy.remove s id idField))
  | simpleListStrategy, SimpleList s, CallReplace items =>
      Ok (SimpleList (SimpleListStrategy.replace s items))
  | simpleListStrategy, SimpleList s, CallUpsert item idField =>
      Ok (SimpleList (SimpleListStrategy.upsert s item idField))
  | arrayStrategy, RawArray a, CallAdd item position =>
      Ok (RawArray (ArrayStrategy.add a item position))
  | arrayStrategy, RawArray a, CallUpdate item idField =>
      Ok (RawArray (ArrayStrategy.update a item idField))
  | arrayStrategy, RawArray a, CallRemove id idField =>
      Ok (RawArray (ArrayStrategy.remove a id idField))
  | arrayStrategy, RawArray a, CallReplace items =>
      Ok (RawArray (ArrayStrategy.replace a items))
  | arrayStrategy, RawArray a, CallUpsert item idField =>
      Ok (RawArray (ArrayStrategy.upsert a item idField))
  | _, _, _ => illShaped strategy call existingData
  end.

Definition add strategy existingData item position :=
  run strategy (CallAdd item position) existingData.
Definition update strategy existingData item idField :=
  run strategy (CallUpdate item idField) existingData.
Definition remove strategy existingData id idField :=
  run strategy (CallRemove id idField) existingData.
Definition replace strategy existingData items :=
  run strategy (CallReplace items) existingData.
Definition upsert strategy existingData item idField :=
  run strategy (CallUpsert item idField) existingData.

End Dispatch.
End CacheStrategy.

(** ** The normalized object store *)

(** The Apollo cache as the managers use it.  [Cache] is the state of the
    store.  Every primitive may throw; a primitive that throws leaves the
    store as it was.  [readQuery] answers [null] ([None]) for a query that
    is not in the store, [identify] answers [undefined] ([None]) when it
    cannot compute an id. *)
Class ApolloCache (Cache : Type) : Type := {
  readQuery : Cache -> DocumentNode -> option (gmap string JsValue) ->
              Result (option CacheData);
  writeQuery : Cache -> DocumentNode -> option (gmap string JsValue) ->
               CacheData -> Result Cache;
  (** [identify({ __typename, [idField]: id })] *)
  identify : Cache -> string -> string -> JsValue -> Result (option string);
  (** [evict({ id })] *)
  evict : Cache -> string -> Result Cache;
  (** [modify({ id, fields })], every field updater returning the new value *)
  modify : Cache -> string -> gmap string JsValue -> Result Cache
}.

(** Code that runs against the store: it ends with a value or a thrown
    error, and in a store state. *)
Definition Run (Cache A : Type) : Type := Cache -> Result A * Cache.

Section RunMonad.
Context {Cache : Type}.

Definition run_ret {A} (a : A) : Run Cache A := fun c => (Ok a, c).

Definition run_bind {A B} (m : Run Cache A) (k : A -> Run Cache B) : Run Cache B :=
  fun c => match m c with
           | (Ok a, c') => k a c'
           | (Throw e, c') => (Throw e, c')
           end.

(** [try { body } catch (error) { handler }] *)
Definition try_catch {A} (body : Run Cache A) (handler : JsError -> Run Cache A)
    : Run Cache A :=
  fun c => match body c with
           | (Ok a, c') => (Ok a, c')
           | (Throw e, c') => handler e c'
           end.

(** A primitive that only reads the store. *)
Definition inspect {A} (f : Cache -> Result A) : Run Cache A :=
  fun c => (f c, c).

(** A primitive that changes the store. *)
Definition perform (f : Cache -> Result Cache) : Run Cache unit :=
  fun c => match f c with
           | Ok c' => (Ok tt, c')
           | Throw e => (Throw e, c)
           end.

(** A computed completion. *)
Definition complete {A} (r : Result A) : Run Cache A := fun c => (r, c).

End RunMonad.

#[global] Instance Run_ret {Cache} : MRet (Run Cache) := @run_ret Cache.
#[global] Instance Run_bind {Cache} : MBind (Run Cache) :=
  fun A B k m => run_bind m k.

(** ** Reading and writing the denormalized query result

    [readCacheData] and [writeCacheData] are private methods of both
    managers, with the same body up to [this.config] against [config]. *)

Section CacheAccess.
Context {Cache : Type} `{ApolloCache Cache} `{JsRuntime}.

Definition readCacheData (config : CacheConfig) : Run Cache (option QueryData) :=
  try_catch
    (cacheData ← inspect (fun c =>
        readQuery c (CacheConfig.query config) (CacheConfig.variables config));
     match cacheData with
     | None => mret None
     | Some cacheData =>
         mret (match non_empty (CacheConfig.queryResultKey config) with
               | Some key => cacheData !! key
               | None => Some (asQueryData cacheData)
               end)
     end)
    (fun _error => mret None).

Definition writeCacheData (config : CacheConfig) (data : QueryData) : Run Cache unit :=
  let cacheData :=
    match non_empty (CacheConfig.queryResultKey config) with
    | Some key => {[ key := data ]}
    | None => asCacheData data
    end in
  perform (fun c =>
    writeQuery c (CacheConfig.query config) (CacheConfig.variables config) cacheData).

End CacheAccess.

(** ** [OptimisticCacheManager] ([cacheManager.ts])

    The methods are [async] and contain no [await]: the promise they
    return is resolved with the value of a body that returns and rejected
    with the error of a body that throws, so [Ok] and [Throw] below are
    also the two fates of the promise.  [console.warn] writes to the
    developer console, which is outside the store, and is not modelled. *)

Module CacheOperation.
(** [CacheOperation<T>], a union tagged by [CacheOperationType]. *)
Inductive t : Type :=
| ADD (item : Entity) (position : option Position)
| UPDATE (item : Entity)
| REMOVE (id : JsValue)
| REPLACE (items : list Entity)
| UPSERT (item : Entity).
End CacheOperation.
Abbreviation CacheOperation := CacheOperation.t.

Module OptimisticCacheManager.

Record t : Type := mk {
  config : CacheConfig;
  strategy : Strategy;
  idField : string
}.

(** The constructor. *)
Definition new (config : CacheConfig) : Result t :=
  let idField := default "id" (CacheConfig.idField config) in
  match select_strategy (CacheConfig.dataStructure config) with
  | Some strategy => Ok {| config := config; strategy := strategy; idField := idField |}
  | None => Throw (unsupported (CacheConfig.dataStructure config))
  end.

Section Methods.
Context {Cache : Type} `{ApolloCache Cache} `{JsRuntime}.

(** The [default:] branch of the switch is unreachable for the five kinds
    of [CacheOperation]. *)
Definition applyOperation (this : t) (existingData : QueryData)
    (operation : CacheOperation) : Result QueryData :=
  match operation with
  | CacheOperation.ADD item position =>
      CacheStrategy.add (strategy this) existingData item position
  | CacheOperation.UPDATE item =>
      CacheStrategy.update (strategy this) existingData item (idField this)
  | CacheOperation.REMOVE id =>
      CacheStrategy.remove (strategy this) existingData id (idField this)
  | CacheOperation.REPLACE items =>
      CacheStrategy.replace (strategy this) existingData items
  | CacheOperation.UPSERT item =>
      CacheStrategy.upsert (strategy this) existingData item (idField this)
  end.

(** The eviction that follows the write of a [REMOVE]:
    [if (operation.type === REMOVE && entityName !== undefined &&
    entityName.length > 0)], then [if (cacheId !== undefined)]. *)
Definition evictRemoved (this : t) (operation : CacheOperation) : Run Cache unit :=
  match operation, non_empty (CacheConfig.entityName (config this)) with
  | CacheOperation.REMOVE id, Some entityName =>
      cacheId ← inspect (fun c => identify c entityName (idField this) id);
      match cacheId with
      | Some cacheId => perform (fun c => evict c cacheId)
      | None => mret tt
      end
  | _, _ => mret tt
  end.

Definition executeOperation (this : t) (operation : CacheOperation) : Run Cache bool :=
  try_catch
    (existingData ← readCacheData (config this);
     match existingData with
     | None => mret false
     | Some existingData =>
         updatedData ← complete (applyOperation this existingData operation);
         writeCacheData (config this) updatedData;;
         evictRemoved this operation;;
         mret true
     end)
    (fun _error => mret false).

Definition addItem (this : t) (item : Entity) (position : option Position) :=
  executeOperation this (CacheOperation.ADD item (Some (position_or_default position))).
Definition updateItem (this : t) (item : Entity) :=
  executeOperation this (CacheOperation.UPDATE item).
Definition removeItem (this : t) (id : JsValue) :=
  executeOperation this (CacheOperation.REMOVE id).
Definition upsertItem (this : t) (item : Entity) :=
  executeOperation this (CacheOperation.UPSERT item).
Definition replaceItems (this : t) (items : list Entity) :=
  executeOperation this (CacheOperation.REPLACE items).

Definition updateItemField (this : t) (id : JsValue)
    (fieldUpdates : gmap string JsValue) : Run Cache bool :=
  try_catch
    (match non_empty (CacheConfig.entityName (config this)) with
     | None => mret false
     | Some entityName =>
         cacheId ← inspect (fun c => identify c entityName (idField this) id);
         match cacheId with
         | None => mret false
         | Some cacheId =>
             perform (fun c => modify c cacheId fieldUpdates);;
             mret true
         end
     end)
    (fun _error => mret false).

End Methods.
End OptimisticCacheManager.

(** ** [EntityCacheManager] ([entityCacheManager.ts]) *)

Inductive EntityOperationType : Type := ADD | UPDATE | REMOVE | REPLACE | UPSERT.

Module EntityOperation.
(** [EntityOperation<T>]: one record for all kinds, the payload fields
    optional.  An absent [id] reads as [undefined]. *)
Record t : Type := mk {
  type : EntityOperationType;
  entityKey : string;
  data : option Entity;
  id : JsValue;
  items : option (list Entity);
  position : option Position
}.
End EntityOperation.
Abbreviation EntityOperation := EntityOperation.t.

Module EntityCacheManager.

Record t : Type := mk {
  entities : gmap string EntityConfig;
  strategies : gmap string Strategy
}.

(** A freshly constructed manager. *)
Definition new : t := {| entities := ∅; strategies := ∅ |}.

(** [registerEntity] returns normally or throws, and in either case leaves
    the manager in the state given second. *)
Definition registerEntity (this : t) (entityKey : string) (config : EntityConfig)
    : Result unit * t :=
  let this1 := {| entities := <[entityKey := config]> (entities this);
                  strategies := strategies this |} in
  match select_strategy (CacheConfig.dataStructure config) with
  | Some strategy =>
      (Ok tt, {| entities := entities this1;
                 strategies := <[entityKey := strategy]> (strategies this1) |})
  | None => (Throw (unsupported (CacheConfig.dataStructure config)), this1)
  end.

Definition destroy (this : t) : t := {| entities := ∅; strategies := ∅ |}.

Section Methods.
Context {Cache : Type} `{ApolloCache Cache} `{JsRuntime}.

(** The [switch (operation.type)]: [None] is a [return false] taken inside
    the switch, [Some r] the completion of the strategy call.  An entity
    and an array are truthy, so [!operation.data] and [!operation.items]
    test for an absent field. *)
Definition applyOperation (strategy : Strategy) (existingData : QueryData)
    (idField : string) (operation : EntityOperation) : option (Result QueryData) :=
  match EntityOperation.type operation with
  | ADD =>
      match EntityOperation.data operation with
      | None => None
      | Some data =>
          Some (CacheStrategy.add strategy existingData data
                  (EntityOperation.position operation))
      end
  | UPDATE =>
      match EntityOperation.data operation with
      | None => None
      | Some data => Some (CacheStrategy.update strategy existingData data idField)
      end
  | REMOVE =>
      if strict_eq (EntityOperation.id operation) JUndefined then None
      else Some (CacheStrategy.remove strategy existingData
                   (EntityOperation.id operation) idField)
  | REPLACE =>
      match EntityOperation.items operation with
      | None => None
      | Some items => Some (CacheStrategy.replace strategy existingData items)
      end
  | UPSERT =>
      match EntityOperation.data operation with
      | None => None
      | Some data => Some (CacheStrategy.upsert strategy existingData data idField)
      end
  end.

(** The eviction that follows the write:
    [if (operation.type === REMOVE && config.entityName && operation.id)]. *)
Definition evictRemoved (config : EntityConfig) (idField : string)
    (operation : EntityOperation) : Run Cache unit :=
  match EntityOperation.type operation, non_empty (CacheConfig.entityName config) with
  | REMOVE, Some entityName =>
      if truthy (EntityOperation.id operation) then
        cacheId ← inspect (fun c =>
           identify c entityName idField (EntityOperation.id operation));
        match non_empty cacheId with
        | Some cacheId => perform (fun c => evict c cacheId)
        | None => mret tt
        end
      else mret tt
  | _, _ => mret tt
  end.

Definition executeOperation (this : t) (operation : EntityOperation) : Run Cache bool :=
  match entities this !! EntityOperation.entityKey operation with
  | None => mret false
  | Some config =>
      match strategies this !! EntityOperation.entityKey operation with
      | None => mret false
      | Some strategy =>
          try_catch
            (existingData ← readCacheData config;
             match existingData with
             | None => mret false
             | Some existingData =>
                 let idField := default "id" (CacheConfig.idField config) in
                 match applyOperation strategy existingData idField operation with
                 | None => mret false
                 | Some completion =>
                     updatedData ← complete completion;
                     writeCacheData config updatedData;;
                     evictRemoved config idField operation;;
                     mret true
                 end
             end)
            (fun _error => mret false)
      end
  end.

Definition getCachedData (this : t) (entityKey : string) : Run Cache (option QueryData) :=
  match entities this !! entityKey with
  | None => mret None
  | Some config => readCacheData config
  end.

End Methods.
End EntityCacheManager.

(** ** [useContextEntityMutations] ([useEntityCache.ts]) *)

(** Two calls the hooks and the legacy utilities make that the managers do
    not: [cache.modify] with an id that may be [undefined] and with its
    boolean result handed back to the caller, and [cache.evict] with an
    [undefined] id. *)
Class ApolloCacheLoose (Cache : Type) : Type := {
  modifyResult : Cache -> option string -> gmap string JsValue -> Result (bool * Cache);
  evictUndefined : Cache -> Result Cache
}.

Module ContextEntityMutations.
Section Hooks.
Context {Cache : Type} `{ApolloCache Cache} `{JsRuntime} `{ApolloCacheLoose Cache}.

Definition addEntity (cacheManager : EntityCacheManager.t) (entityKey : string)
    (entity : Entity) (position : option Position) : Run Cache bool :=
  let operation :=
    {| EntityOperation.type := ADD;
       EntityOperation.entityKey := entityKey;
       EntityOperation.data := Some entity;
       EntityOperation.id := JUndefined;
       EntityOperation.items := None;
       EntityOperation.position := Some (position_or_default position) |} in
  EntityCacheManager.executeOperation cacheManager operation.

Definition updateEntity (cacheManager : EntityCacheManager.t) (entityKey : string)
    (entity : Entity) : Run Cache bool :=
  let operation :=
    {| EntityOperation.type := UPDATE;
       EntityOperation.entityKey := entityKey;
       EntityOperation.data := Some entity;
       EntityOperation.id := JUndefined;
       EntityOperation.items := None;
       EntityOperation.position := None |} in
  EntityCacheManager.executeOperation cacheManager operation.

Definition removeEntity (cacheManager : EntityCacheManager.t) (entityKey : string)
    (id : JsValue) : Run Cache bool :=
  let operation :=
    {| EntityOperation.type := REMOVE;
       EntityOperation.entityKey := entityKey;
       EntityOperation.data := None;
       EntityOperation.id := id;
       EntityOperation.items := None;
       EntityOperation.position := None |} in
  EntityCacheManager.executeOperation cacheManager operation.

Definition upsertEntity (cacheManager : EntityCacheManager.t) (entityKey : string)
    (entity : Entity) : Run Cache bool :=
  let operation :=
    {| EntityOperation.type := UPSERT;
       EntityOperation.entityKey := entityKey;
       EntityOperation.data := Some entity;
       EntityOperation.id := JUndefined;
       EntityOperation.items := None;
       EntityOperation.position := None |} in
  EntityCacheManager.executeOperation cacheManager operation.

Definition replaceEntities (cacheManager : EntityCacheManager.t) (entityKey : string)
    (entities : list Entity) : Run Cache bool :=
  let operation :=
    {| EntityOperation.type := REPLACE;
       EntityOperation.entityKey := entityKey;
       EntityOperation.data := None;
       EntityOperation.id := JUndefined;
       EntityOperation.items := Some entities;
       EntityOperation.position := None |} in
  EntityCacheManager.executeOperation cacheManager operation.

(** [cache.modify({ id: cache.identify({ __typename: 'Todo', id }), fields })]
    with the result returned. *)
Definition modifyReturning (cacheId : option string)
    (fieldUpdates : gmap string JsValue) : Run Cache bool :=
  fun c => match modifyResult c cacheId fieldUpdates with
           | Ok (result, c') => (Ok result, c')
           | Throw e => (Throw e, c)
           end.

Definition modifyTodo (id : JsValue) (fieldUpdates : gmap string JsValue) : Run Cache bool :=
  cacheId ← inspect (fun c => identify c "Todo" "id" id);
  modifyReturning cacheId fieldUpdates.

Definition updateEntityFields (cacheManager : EntityCacheManager.t) (entityKey : string)
    (id : JsValue) (fieldUpdates : gmap string JsValue) : Run Cache bool :=
  cachedData ← EntityCacheManager.getCachedData cacheManager entityKey;
  match cachedData with
  | None => mret false
  | Some _ => try_catch (modifyTodo id fieldUpdates) (fun _error => mret false)
  end.

End Hooks.
End ContextEntityMutations.

(** ** Cross-tab refresh ([useContextEntityData] of [useEntityCache.ts]) *)

(** [client.query] with [fetchPolicy: 'network-only'], awaited: its outcome
    ([data ?? null]) and the store as it is when the caller resumes. *)
Class ApolloClientNetwork (Cache : Type) : Type := {
  clientQuery : Cache -> DocumentNode -> option (gmap string JsValue) ->
                Result (option CacheData) * Cache
}.

Module MessageData.
(** The fields of [event.data] the handler looks at.  A message without
    [data] makes the handler throw before it touches the flag, which leaves
    the consumer as a message with neither field does. *)
Record t : Type := mk {
  type : option string;
  entityKey : option string
}.
End MessageData.

Module ContextEntityData.

(** What reaches one mounted consumer: a message on the channel
    [entity-cache-sync], a [storage] event (its [key] may be [null]), and
    the cleanup of the effect, after which the effect subscribes again or
    the consumer is gone. *)
Inductive Event : Type :=
| Message (eventData : MessageData.t)
| StorageEvent (key : option string)
| Cleanup.

Section Refresh.
Context {Cache : Type} `{ApolloCache Cache} `{ApolloClientNetwork Cache}.

Definition fetchFromNetwork (query : DocumentNode)
    (variables : option (gmap string JsValue)) : Run Cache (option CacheData) :=
  fun c => clientQuery c query variables.

Definition refresh (query : DocumentNode) (variables : option (gmap string JsValue))
    (networkOnly : bool) : Run Cache unit :=
  try_catch
    (dataToBroadcast ←
       (if networkOnly then fetchFromNetwork query variables
        else inspect (fun c => readQuery c query variables));
     match dataToBroadcast with
     | Some dataToBroadcast =>
         perform (fun c => writeQuery c query variables dataToBroadcast)
     | None => mret tt
     end)
    (fun _error => mret tt).

End Refresh.

Section Handlers.
(** [APOLLO_CACHE_KEY] of [utils/constants]; [hasBroadcastChannel] is
    [typeof BroadcastChannel !== 'undefined']. *)
Variable APOLLO_CACHE_KEY : string.
Variable hasBroadcastChannel : bool.
Variable entityKey : string.

(** The handlers act on [waitingForStorageRef.current]. *)
Definition handleBroadcastMessage (waitingForStorage : bool)
    (eventData : MessageData.t) : bool :=
  if bool_decide (MessageData.type eventData = Some "cache-update") &&
     bool_decide (MessageData.entityKey eventData = Some entityKey)
  then true
  else waitingForStorage.

(** The new flag, and whether [refresh(false)] is called. *)
Definition handleStorageChange (waitingForStorage : bool) (key : option string)
    : bool * bool :=
  if waitingForStorage && bool_decide (key = Some APOLLO_CACHE_KEY)
  then (false, true)
  else (waitingForStorage, false).

Definition step (waitingForStorage : bool) (event : Event) : bool * bool :=
  match event with
  | Message eventData =>
      (if hasBroadcastChannel then handleBroadcastMessage waitingForStorage eventData
       else waitingForStorage, false)
  | StorageEvent key => handleStorageChange waitingForStorage key
  | Cleanup => (false, false)
  end.

(** The flag after a run of events and the number of refreshes called. *)
Fixpoint run (waitingForStorage : bool) (events : list Event) : bool * nat :=
  match events with
  | [] => (waitingForStorage, 0%nat)
  | event :: rest =>
      let '(waiting, refreshed) := step waitingForStorage event in
      let '(final, count) := run waiting rest in
      (final, ((if refreshed then 1 else 0) + count)%nat)
  end.

(** A message that makes this consumer wait. *)
Definition is_update (event : Event) : bool :=
  match event with
  | Message eventData =>
      bool_decide (MessageData.type eventData = Some "cache-update") &&
      bool_decide (MessageData.entityKey eventData = Some entityKey)
  | _ => false
  end.

End Handlers.
End ContextEntityData.

(** ** [todoCacheUtils.ts] *)

(** The legacy utilities read [existingData.todos.pagination.total]; on a
    [todos] object that is typed as a simple list the outcome depends on
    what its extra fields hold and is left to the run time. *)
Class TodosRuntime : Type := {
  addToIllShaped : Entity -> SimpleListData -> Result QueryData;
  removeFromIllShaped : string -> SimpleListData -> Result QueryData
}.

Module TodoCacheUtils.
Section Utils.
Context {Cache : Type} `{ApolloCache Cache} `{ApolloCacheLoose Cache} `{TodosRuntime}.
(** [GET_TODOS] of [apollo/operations] and the default query variables. *)
Variable GET_TODOS : DocumentNode.
Variable DEFAULT_TODOS_QUERY_VARIABLES : gmap string JsValue.

Definition createTodosCacheManager (query : DocumentNode)
    (variables : option (gmap string JsValue)) : Result OptimisticCacheManager.t :=
  OptimisticCacheManager.new
    {| CacheConfig.query := query;
       CacheConfig.variables := variables;
       CacheConfig.queryResultKey := Some "todos";
       CacheConfig.dataStructure := DataStructure.PAGINATED;
       CacheConfig.entityName := Some "Todo";
       CacheConfig.idField := Some "id" |}.

(** A missing [todos] and an array have no [data] to spread or filter. *)
Definition addTodoToCache (newTodo : Entity)
    (queryVariables : option (gmap string JsValue)) : Run Cache bool :=
  let queryVariables := default DEFAULT_TODOS_QUERY_VARIABLES queryVariables in
  try_catch
    (existingData ← inspect (fun c => readQuery c GET_TODOS (Some queryVariables));
     match existingData with
     | Some existingData =>
         todos ← complete
           match existingData !! "todos" with
           | Some (Paginated todos) =>
               Ok (Paginated
                     {| data := newTodo :: data todos;
                        pagination :=
                          {| total := number_add (total (pagination todos)) 1;
                             pagination_rest := pagination_rest (pagination todos) |};
                        paginated_rest := paginated_rest todos |})
           | Some (SimpleList todos) => addToIllShaped newTodo todos
           | Some (RawArray _) => Throw (TypeError "existingData.todos.data is not iterable")
           | None => Throw (TypeError "existingData.todos is undefined")
           end;
         perform (fun c =>
           writeQuery c GET_TODOS (Some queryVariables) {[ "todos" := todos ]});;
         mret true
     | None => mret false
     end)
    (fun _error => mret false).

Definition removeTodoFromCache (todoId : string)
    (queryVariables : option (gmap string JsValue)) : Run Cache bool :=
  let queryVariables := default DEFAULT_TODOS_QUERY_VARIABLES queryVariables in
  try_catch
    (existingData ← inspect (fun c => readQuery c GET_TODOS (Some queryVariables));
     match existingData with
     | Some existingData =>
         todos ← complete
           match existingData !! "todos" with
           | Some (Paginated todos) =>
               Ok (Paginated
                     {| data :=
                          List.filter
                            (fun item => negb (strict_eq (get item "id") (JString todoId)))
                            (data todos);
                        pagination :=
                          {| total := Z.max 0 (number_sub (total (pagination todos)) 1);
                             pagination_rest := pagination_rest (pagination todos) |};
                        paginated_rest := paginated_rest todos |})
           | Some (SimpleList todos) => removeFromIllShaped todoId todos
           | Some (RawArray _) => Throw (TypeError "existingData.todos.data is undefined")
           | None => Throw (TypeError "existingData.todos is undefined")
           end;
         perform (fun c =>
           writeQuery c GET_TODOS (Some queryVariables) {[ "todos" := todos ]});;
         cacheId ← inspect (fun c => identify c "Todo" "id" (JString todoId));
         perform (fun c =>
           match cacheId with
           | Some cacheId => evict c cacheId
           | None => evictUndefined c
           end);;
         mret true
     | None => mret false
     end)
    (fun _error => mret false).

End Utils.
End TodoCacheUtils.

(** ** A small store to run the managers on

    One implementation of the store interface: query results kept per
    (query, variables), normalized records kept per cache id, and two
    switches that make reads or writes throw, as a store does on a
    malformed document or a value it cannot normalize. *)

Module InMemoryCache.

#[global] Instance spec_float_eq_dec : EqDecision spec_float.
Proof. solve_decision. Defined.
#[global] Instance JsValue_eq_dec : EqDecision JsValue.
Proof. solve_decision. Defined.

Record t : Type := mk {
  queries : list ((DocumentNode * option (gmap string JsValue)) * CacheData);
  records : gmap string (gmap string JsValue);
  failReads : bool;
  failWrites : bool
}.

Fixpoint lookup_query (k : DocumentNode * option (gmap string JsValue))
    (l : list ((DocumentNode * option (gmap string JsValue)) * CacheData))
    : option CacheData :=
  match l with
  | [] => None
  | (k', v) :: rest => if decide (k = k') then Some v else lookup_query k rest
  end.

Fixpoint store_query (k : DocumentNode * option (gmap string JsValue)) (v : CacheData)
    (l : list ((DocumentNode * option (gmap string JsValue)) * CacheData))
    : list ((DocumentNode * option (gmap string JsValue)) * CacheData) :=
  match l with
  | [] => [(k, v)]
  | (k', v') :: rest =>
      if decide (k = k') then (k, v) :: rest else (k', v') :: store_query k v rest
  end.

(** The text of an identity inside a cache id; integers and strings only. *)
Definition id_text (id : JsValue) : option string :=
  match id with
  | JString s => Some s
  | JNumber (S754_zero _) => Some "0"
  | JNumber (S754_finite s m (Zpos e)) =>
      Some ((if s then "-" else "") +:+ pretty (N.pos (m * 2 ^ e)%positive))
  | JNumber (S754_finite s m Z0) =>
      Some ((if s then "-" else "") +:+ pretty (N.pos m))
  | _ => None
  end.

#[global] Instance apollo : ApolloCache t := {|
  readQuery c query variables :=
    if failReads c then Throw (Error "Invariant Violation")
    else Ok (lookup_query (query, variables) (queries c));
  writeQuery c query variables cacheData :=
    if failWrites c then Throw (Error "Invariant Violation")
    else Ok {| queries := store_query (query, variables) cacheData (queries c);
               records := records c;
               failReads := failReads c;
               failWrites := failWrites c |};
  identify c typename idField id :=
    Ok (text ← id_text id; Some (typename +:+ ":" +:+ text));
  evict c cacheId :=
    Ok {| queries := queries c;
          records := delete cacheId (records c);
          failReads := failReads c;
          failWrites := failWrites c |};
  modify c cacheId fields :=
    if failWrites c then Throw (Error "Invariant Violation")
    else Ok {| queries := queries c;
               records := alter (fun old => fields ∪ old) cacheId (records c);
               failReads := failReads c;
               failWrites := failWrites c |}
|}.

(** Ill-shaped data makes the strategy throw; the casts keep or wrap the
    value under the key ["data"]. *)
#[global] Instance runtime : JsRuntime := {|
  asQueryData cacheData := default (RawArray []) (cacheData !! "data");
  asCacheData data := {[ "data" := data ]};
  illShaped _ _ _ := Throw (TypeError "existingData is not of the expected shape")
|}.

End InMemoryCache.

(** ** Sample data *)

Module Sample.

Definition todo (id : JsValue) (title : string) : Entity :=
  {[ "id" := id; "title" := JString title ]}.

Definition GetTodos : DocumentNode := "query GetTodos".

Definition todosConfig (dataStructure : string) : CacheConfig :=
  {| CacheConfig.query := GetTodos;
     CacheConfig.variables := None;
     CacheConfig.queryResultKey := Some "todos";
     CacheConfig.dataStructure := dataStructure;
     CacheConfig.entityName := Some "Todo";
     CacheConfig.idField := Some "id" |}.

Definition page (items : list Entity) (total : Z) : PaginatedData :=
  {| data := items;
     pagination := {| total := total;
                      pagination_rest := {[ "page" := num_pos 1; "limit" := num_pos 50 ]} |};
     paginated_rest := ∅ |}.

(** Three todos cached as a page with [total = 3]. *)
Definition threeTodos : PaginatedData :=
  page [todo (JString "1") "a"; todo (JString "2") "b"; todo (JString "3") "c"] 3.

(** A store holding [d] as the result of [GetTodos] and one normalized
    record per listed cache id. *)
Definition storeWith (d : QueryData) (ids : list string) : InMemoryCache.t :=
  {| InMemoryCache.queries := [((GetTodos, None), {[ "todos" := d ]})];
     InMemoryCache.records := list_to_map ((fun i => (i, (∅ : gmap string JsValue))) <$> ids);
     InMemoryCache.failReads := false;
     InMemoryCache.failWrites := false |}.

Definition emptyStore : InMemoryCache.t :=
  {| InMemoryCache.queries := [];
     InMemoryCache.records := ∅;
     InMemoryCache.failReads := false;
     InMemoryCache.failWrites := false |}.



(** The operations [useContextEntityMutations] builds for [addEntity] and
    [removeEntity]. *)
Definition addOperation (entityKey : string) (entity : Entity) : EntityOperation :=
  {| EntityOperation.type := ADD;
     EntityOperation.entityKey := entityKey;
     EntityOperation.data := Some entity;
     EntityOperation.id := JUndefined;
     EntityOperation.items := None;
     EntityOperation.position := Some START |}.

Definition removeOperation (entityKey : string) (id : JsValue) : EntityOperation :=
  {| EntityOperation.type := REMOVE;
     EntityOperation.entityKey := entityKey;
     EntityOperation.data := None;
     EntityOperation.id := id;
     EntityOperation.items := None;
     EntityOperation.position := None |}.

(** An [EntityCacheManager] after [registerEntity('todos', config)]. *)
Definition registry (dataStructure : string) : EntityCacheManager.t :=
  snd (EntityCacheManager.registerEntity EntityCacheManager.new "todos"
         (todosConfig dataStructure)).

(** The [OptimisticCacheManager] that [createTodosCacheManager] builds. *)
Definition todosManager : OptimisticCacheManager.t :=
  {| OptimisticCacheManager.config := todosConfig DataStructure.PAGINATED;
     OptimisticCacheManager.strategy := paginatedStrategy;
     OptimisticCacheManager.idField := "id" |}.

(** One cached todo whose id is the number 0, with its normalized record. *)
Definition zeroStore : InMemoryCache.t :=
  storeWith (Paginated (page [todo num_zero "z"] 1)) ["Todo:0"].

(** One cached todo whose id is the number 42, with its normalized record. *)
Definition fortyTwoStore : InMemoryCache.t :=
  storeWith (Paginated (page [todo (num_pos 42) "z"] 1)) ["Todo:42"].

End Sample.

(** ** The same store behind a garbage collector that fails

    Reads, writes and [identify] go to the store inside; [evict] throws. *)

Module FailingEviction.

Record t : Type := mk { store : InMemoryCache.t }.

#[global] Instance apollo : ApolloCache t := {|
  readQuery c query variables := readQuery (store c) query variables;
  writeQuery c query variables cacheData :=
    match writeQuery (store c) query variables cacheData with
    | Ok c' => Ok {| store := c' |}
    | Throw e => Throw e
    end;
  identify c typename idField id := identify (store c) typename idField id;
  evict _ _ := Throw (Error "Invariant Violation");
  modify c cacheId fields :=
    match modify (store c) cacheId fields with
    | Ok c' => Ok {| store := c' |}
    | Throw e => Throw e
    end
|}.

End FailingEviction.

(** ** The small store, completed for the hooks and the legacy utilities *)

Module InMemoryClient.

#[global] Instance loose : ApolloCacheLoose InMemoryCache.t := {|
  modifyResult c cacheId fields :=
    if InMemoryCache.failWrites c then Throw (Error "Invariant Violation")
    else match cacheId with
         | Some cacheId =>
             match InMemoryCache.records c !! cacheId with
             | Some old =>
                 Ok (true,
                     {| InMemoryCache.queries := InMemoryCache.queries c;
                        InMemoryCache.records :=
                          <[cacheId := fields ∪ old]> (InMemoryCache.records c);
                        InMemoryCache.failReads := InMemoryCache.failReads c;
                        InMemoryCache.failWrites := InMemoryCache.failWrites c |})
             | None => Ok (false, c)
             end
         | None => Ok (false, c)
         end;
  evictUndefined c := Ok c
|}.

(** The network answers with what the store holds. *)
#[global] Instance network : ApolloClientNetwork InMemoryCache.t := {|
  clientQuery c query variables := (readQuery c query variables, c)
|}.

#[global] Instance todosRuntime : TodosRuntime := {|
  addToIllShaped _ _ := Throw (TypeError "existingData.todos.pagination is undefined");
  removeFromIllShaped _ _ := Throw (TypeError "existingData.todos.pagination is undefined")
|}.

End InMemoryClient.

(** ** More sample data *)

Module MoreSamples.

(** The three todos cached under the variables the legacy utilities use,
    with their normalized records. *)
Definition legacyStore : InMemoryCache.t :=
  {| InMemoryCache.queries :=
       [((Sample.GetTodos, Some (∅ : gmap string JsValue)),
         {[ "todos" := Paginated Sample.threeTodos ]})];
     InMemoryCache.records :=
       list_to_map ((fun i => (i, (∅ : gmap string JsValue)))
                      <$> ["Todo:1"; "Todo:2"; "Todo:3"]);
     InMemoryCache.failReads := false;
     InMemoryCache.failWrites := false |}.

(** The same page as the server sends it, with its [__typename]. *)
Definition typedTodos : PaginatedData :=
  {| data := data Sample.threeTodos;
     pagination := pagination Sample.threeTodos;
     paginated_rest := {[ "__typename" := JString "TodosResponse" ]} |}.

Definition typedStore : InMemoryCache.t :=
  {| InMemoryCache.queries :=
       [((Sample.GetTodos, Some (∅ : gmap string JsValue)),
         {[ "todos" := Paginated typedTodos ]})];
     InMemoryCache.records := InMemoryCache.records legacyStore;
     InMemoryCache.failReads := false;
     InMemoryCache.failWrites := false |}.

Definition APOLLO_CACHE_KEY : string := "apollo-cache-persist".

Definition updateOf (entityKey : string) : ContextEntityData.Event :=
  ContextEntityData.Message
    {| MessageData.type := Some "cache-update";
       MessageData.entityKey := Some entityKey |}.

End MoreSamples.

(** ** Vocabulary of the properties *)

(** An [add] or a [remove] applied to a paginated cache. *)
Inductive ListOp : Type :=
| OpAdd (item : Entity) (position : option Position)
| OpRemove (id : JsValue) (idField : string).

Definition apply_op (existingData : PaginatedData) (op : ListOp) : PaginatedData :=
  match op with
  | OpAdd item position => PaginatedStrategy.add existingData item position
  | OpRemove id idField => PaginatedStrategy.remove existingData id idField
  end.

Definition apply_ops (ops : list ListOp) (existingData : PaginatedData) : PaginatedData :=
  fold_left apply_op ops existingData.

Definition is_add (op : ListOp) : bool :=
  match op with OpAdd _ _ => true | OpRemove _ _ => false end.

Definition adds (ops : list ListOp) : Z :=
  Z.of_nat (length (List.filter is_add ops)).

Definition removes (ops : list ListOp) : Z :=
  Z.of_nat (length (List.filter (fun op => negb (is_add op)) ops)).

(** The largest magnitude up to which every integer is a double, so that
    [+ 1] and [- 1] below it are exact. *)
Definition exact_limit : Z := 2 ^ 53.

(** What one operation does to a counter that is counted exactly. *)
Definition step_total (t : Z) (op : ListOp) : Z :=
  match op with
  | OpAdd _ _ => t + 1
  | OpRemove _ _ => Z.max 0 (t - 1)
  end.

Definition total_after (ops : list ListOp) (t0 : Z) : Z := fold_left step_total ops t0.

(** The running balance [t0 + #adds - #removes] stays at or above 0 from
    the start to the end of the sequence, so that no remove is floored. *)
Fixpoint never_floored (t0 : Z) (ops : list ListOp) : bool :=
  match ops with
  | [] => 0 <=? t0
  | op :: rest =>
      (0 <=? t0) && never_floored (if is_add op then t0 + 1 else t0 - 1) rest
  end.

(** Some element of [xs] has the identity [id], compared with [===] as the
    strategies do; [occurs ... = false] says that [id] is absent. *)
Definition occurs (idField : string) (id : JsValue) (xs : list Entity) : bool :=
  existsb (fun e => strict_eq (get e idField) id) xs.


(** [ys] is [xs] with exactly the elements of [item]'s identity replaced by
    [item], position by position. *)
Definition updated_exactly (idField : string) (item : Entity)
    (xs ys : list Entity) : Prop :=
  length ys = length xs /\
  forall (i : nat) (e : Entity), xs !! i = Some e ->
    (strict_eq (get e idField) (get item idField) = true -> ys !! i = Some item) /\
    (strict_eq (get e idField) (get item idField) = false -> ys !! i = Some e).

Section StoreVocabulary.
Context {Cache : Type} `{ApolloCache Cache}.

(** The cache entry of [config] is missing: the read answers [null] or throws. *)
Definition read_fails (c : Cache) (config : CacheConfig) : Prop :=
  readQuery c (CacheConfig.query config) (CacheConfig.variables config) = Ok None \/
  exists e, readQuery c (CacheConfig.query config) (CacheConfig.variables config) = Throw e.


End StoreVocabulary.

(** No two elements of [xs] have strictly equal identities. *)
Fixpoint distinct_identities (idField : string) (xs : list Entity) : bool :=
  match xs with
  | [] => true
  | e :: rest =>
      negb (occurs idField (get e idField) rest) && distinct_identities idField rest
  end.

(** The operation of [cacheManager.ts] that an operation record of
    [entityCacheManager.ts] stands for; [None] when the field its kind
    needs is missing. *)
Definition toCacheOperation (operation : EntityOperation) : option CacheOperation :=
  match EntityOperation.type operation with
  | ADD =>
      (fun data => CacheOperation.ADD data (EntityOperation.position operation))
        <$> EntityOperation.data operation
  | UPDATE => CacheOperation.UPDATE <$> EntityOperation.data operation
  | REMOVE =>
      if strict_eq (EntityOperation.id operation) JUndefined then None
      else Some (CacheOperation.REMOVE (EntityOperation.id operation))
  | REPLACE => CacheOperation.REPLACE <$> EntityOperation.items operation
  | UPSERT => CacheOperation.UPSERT <$> EntityOperation.data operation
  end.

Definition is_remove (operation : CacheOperation) : bool :=
  match operation with CacheOperation.REMOVE _ => true | _ => false end.

Section StoreLaws.
Context {Cache : Type} `{ApolloCache Cache}.

(** Whatever is written from the state [c] under a query is what the
    query reads next. *)
Definition read_after_write (c : Cache) : Prop :=
  forall (c' : Cache) query variables cacheData,
    writeQuery c query variables cacheData = Ok c' ->
    readQuery c' query variables = Ok (Some cacheData).

(** The [todos] entry of the query, when there is one, is a page that
    owns [data] and [pagination] and nothing else. *)
Definition todos_plain_page (c : Cache) (query : DocumentNode)
    (variables : option (gmap string JsValue)) : Prop :=
  forall cacheData, readQuery c query variables = Ok (Some cacheData) ->
    match cacheData !! "todos" with
    | Some (Paginated todos) => paginated_rest todos = ∅
    | None => True
    | Some _ => False
    end.

End StoreLaws.

(** Events that leave a waiting consumer waiting: any message, and storage
    events of other keys. *)
Definition keeps_waiting (APOLLO_CACHE_KEY : string)
    (event : ContextEntityData.Event) : bool :=
  match event with
  | ContextEntityData.Message _ => true
  | ContextEntityData.StorageEvent key => negb (bool_decide (key = Some APOLLO_CACHE_KEY))
  | ContextEntityData.Cleanup => false
  end.

(** [config] pointed at another entity type and identity field. *)
Definition retarget (config : CacheConfig) (entityName idField : option string)
    : CacheConfig :=
  {| CacheConfig.query := CacheConfig.query config;
     CacheConfig.variables := CacheConfig.variables config;
     CacheConfig.queryResultKey := CacheConfig.queryResultKey config;
     CacheConfig.dataStructure := CacheConfig.dataStructure config;
     CacheConfig.entityName := entityName;
     CacheConfig.idField := idField |}.

(** * Properties of the strategies *)

(** ** Strict equality and the list helpers *)

Lemma SFeqb_self_r (x y : spec_float) : SFeqb x y = true -> SFeqb y y = true.
Proof.
  unfold SFeqb, SFcompare.
  destruct y as [sy|sy| |sy my ey].
  - reflexivity.
  - destruct sy; reflexivity.
  - destruct x; discriminate.
  - intros _. rewrite Z.compare_refl, Pos.compare_cont_refl.
    destruct sy; reflexivity.
Qed.

Lemma strict_eq_self_r (a b : JsValue) : strict_eq a b = true -> strict_eq b b = true.
Proof.
  destruct a, b; simpl; try discriminate; try reflexivity; intros Hab.
  - apply Bool.eqb_reflx.
  - exact (SFeqb_self_r _ _ Hab).
  - apply String.eqb_refl.
  - apply N.eqb_refl.
Qed.

(** Every value but [NaN] is strictly equal to itself. *)
Lemma strict_eq_refl_iff (a : JsValue) : strict_eq a a = true <-> a <> num_NaN.
Proof.
  split.
  - intros Ha ->. discriminate.
  - intros Ha. destruct a as [| |b|x|s|r]; simpl; try reflexivity.
    + apply Bool.eqb_reflx.
    + destruct x as [sx|sx| |sx mx ex]; unfold SFeqb, SFcompare.
      * reflexivity.
      * destruct sx; reflexivity.
      * exfalso. apply Ha. reflexivity.
      * rewrite Z.compare_refl, Pos.compare_cont_refl. destruct sx; reflexivity.
    + apply String.eqb_refl.
    + apply N.eqb_refl.
Qed.

Lemma findIndex_found {A : Type} (p : A -> bool) (l : list A) :
  (findIndex p l >=? 0) = existsb p l.
Proof.
  induction l as [|x rest IH]; simpl; [reflexivity|].
  destruct (p x); simpl; [reflexivity|].
  rewrite <- IH, !Z.geb_leb.
  destruct (Z.ltb_spec (findIndex p rest) 0).
  - destruct (Z.leb_spec 0 (findIndex p rest)); [lia | reflexivity].
  - destruct (Z.leb_spec 0 (findIndex p rest)); [apply Z.leb_le | ]; lia.
Qed.

Lemma findIndex_occurs idField item xs :
  (findIndex (same_identity idField item) xs >=? 0) = occurs idField (get item idField) xs.
Proof. apply findIndex_found. Qed.


Lemma absent_spec idField id xs :
  occurs idField id xs = false <->
  forall e : Entity, e ∈ xs -> strict_eq (get e idField) id = false.
Proof.
  unfold occurs. induction xs as [|x rest IH]; simpl.
  - split; [intros _ e He; inversion He | reflexivity].
  - rewrite orb_false_iff, IH. split.
    + intros [Hx Hrest] e He. apply elem_of_cons in He as [->|He]; auto.
    + intros Hall. split; [apply Hall; left | intros e He; apply Hall; right; exact He].
Qed.

Lemma replace_matching_length idField item xs :
  length (replace_matching idField item xs) = length xs.
Proof. apply length_map. Qed.

Lemma replace_matching_absent idField item xs :
  occurs idField (get item idField) xs = false -> replace_matching idField item xs = xs.
Proof.
  unfold occurs, replace_matching, same_identity.
  induction xs as [|e rest IH]; simpl; [reflexivity|].
  intros [He Hrest]%orb_false_iff. rewrite He, IH by exact Hrest. reflexivity.
Qed.

Lemma replace_matching_idem idField item xs :
  replace_matching idField item (replace_matching idField item xs)
  = replace_matching idField item xs.
Proof.
  unfold replace_matching. rewrite List.map_map. apply List.map_ext. intros e.
  destruct (same_identity idField item e) eqn:He; [|rewrite He; reflexivity].
  unfold same_identity in *. rewrite (strict_eq_self_r _ _ He). reflexivity.
Qed.

Lemma replace_matching_keeps_match idField item xs :
  occurs idField (get item idField) (replace_matching idField item xs)
  = occurs idField (get item idField) xs.
Proof.
  unfold occurs, replace_matching, same_identity.
  induction xs as [|e rest IH]; simpl; [reflexivity|].
  rewrite IH. destruct (strict_eq (get e idField) (get item idField)) eqn:He;
    [|rewrite He; reflexivity].
  rewrite (strict_eq_self_r _ _ He). reflexivity.
Qed.

Lemma replace_matching_exact idField item xs :
  updated_exactly idField item xs (replace_matching idField item xs).
Proof.
  split; [apply replace_matching_length|].
  intros i e Hi. unfold replace_matching.
  rewrite list_lookup_fmap, Hi. unfold same_identity. simpl.
  split; intros ->; reflexivity.
Qed.

Lemma without_identity_absent idField id xs :
  occurs idField id xs = false -> without_identity idField id xs = xs.
Proof.
  unfold occurs, without_identity, other_identity.
  induction xs as [|e rest IH]; simpl; [reflexivity|].
  intros [He Hrest]%orb_false_iff. rewrite He, IH by exact Hrest. reflexivity.
Qed.

Lemma without_identity_elem idField id xs (e : Entity) :
  e ∈ without_identity idField id xs <->
  e ∈ xs /\ strict_eq (get e idField) id = false.
Proof.
  unfold without_identity, other_identity.
  rewrite !list_elem_of_In, filter_In, negb_true_iff. reflexivity.
Qed.

Lemma without_identity_sublist idField id xs :
  without_identity idField id xs `sublist_of` xs.
Proof.
  unfold without_identity. induction xs as [|e rest IH]; simpl; [constructor|].
  destruct (other_identity idField id e); [apply sublist_skip | apply sublist_cons]; exact IH.
Qed.

Lemma without_identity_clean idField id xs :
  occurs idField id (without_identity idField id xs) = false.
Proof.
  apply absent_spec. intros e He. apply without_identity_elem in He. tauto.
Qed.

(** ** The pagination counter under sequences of add and remove *)

Lemma adds_cons op ops : adds (op :: ops) = (if is_add op then 1 else 0) + adds ops.
Proof. unfold adds. simpl. destruct (is_add op); simpl length; lia. Qed.

Lemma removes_cons op ops : removes (op :: ops) = (if is_add op then 0 else 1) + removes ops.
Proof. unfold removes. simpl. destruct (is_add op); simpl length; lia. Qed.

Lemma round_to_double_exact z : Z.abs z <= exact_limit -> round_to_double z = z.
Proof.
  unfold round_to_double, exact_limit. intros Hz.
  destruct (Z.leb_spec (Z.abs z) (2 ^ 53)); [reflexivity | lia].
Qed.

Lemma round_to_double_nonpos z : z <= 0 -> round_to_double z <= 0.
Proof.
  unfold round_to_double. intros Hz.
  destruct (Z.leb_spec (Z.abs z) (2 ^ 53)) as [_|Hbig]; [exact Hz|].
  set (e := Z.log2 (Z.abs z) - 52).
  assert (Hq : 0 <= Z.shiftr (Z.abs z) e) by (apply Z.shiftr_nonneg, Z.abs_nonneg).
  assert (Hp : 0 <= 2 ^ e) by apply Z.pow_nonneg, Z.lt_le_incl, Z.lt_0_2.
  assert (Hs : Z.sgn z = -1) by (apply Z.sgn_neg; lia).
  rewrite Hs.
  destruct (_ <? _); [nia|]. destruct (_ <? _); [nia|]. destruct (Z.even _); nia.
Qed.

Lemma number_add_exact t :
  - exact_limit <= t -> t + 1 <= exact_limit -> number_add t 1 = t + 1.
Proof. intros Hlo Hhi. apply round_to_double_exact. lia. Qed.

Lemma floored_number_sub_exact t :
  t <= exact_limit -> Z.max 0 (number_sub t 1) = Z.max 0 (t - 1).
Proof.
  intros Hhi. unfold number_sub.
  destruct (Z.le_gt_cases (- exact_limit) (t - 1)) as [Hlo|Hlo].
  - rewrite round_to_double_exact by lia. reflexivity.
  - pose proof (round_to_double_nonpos (t - 1)) as Hneg.
    unfold exact_limit in *. lia.
Qed.

Lemma exact_limit_pos : 0 < exact_limit.
Proof. reflexivity. Qed.

Lemma total_apply_op S op :
  - exact_limit <= total (pagination S) ->
  Z.max 0 (total (pagination S)) + (if is_add op then 1 else 0) <= exact_limit ->
  total (pagination (apply_op S op)) = step_total (total (pagination S)) op.
Proof.
  pose proof exact_limit_pos. intros Hlo Hhi. destruct op; simpl in *.
  - apply number_add_exact; lia.
  - apply floored_number_sub_exact; lia.
Qed.

Lemma total_apply_ops ops : forall S,
  - exact_limit <= total (pagination S) ->
  Z.max 0 (total (pagination S)) + adds ops <= exact_limit ->
  total (pagination (apply_ops ops S)) = total_after ops (total (pagination S)).
Proof.
  pose proof exact_limit_pos.
  unfold apply_ops, total_after.
  induction ops as [|op ops IH]; intros S Hlo Hhi; simpl; [reflexivity|].
  rewrite adds_cons in Hhi.
  assert (Hadds : 0 <= adds ops) by (unfold adds; lia).
  assert (Hstep : total (pagination (apply_op S op))
                  = step_total (total (pagination S)) op).
  { apply total_apply_op; [exact Hlo|]. destruct (is_add op); lia. }
  rewrite IH.
  - rewrite Hstep. reflexivity.
  - rewrite Hstep. destruct op; simpl in *; lia.
  - rewrite Hstep. destruct op; simpl in *; lia.
Qed.

Lemma total_after_lower ops : forall t, t + adds ops - removes ops <= total_after ops t.
Proof.
  unfold total_after.
  induction ops as [|op ops IH]; intros t; simpl.
  - unfold adds, removes. simpl. lia.
  - rewrite adds_cons, removes_cons. specialize (IH (step_total t op)).
    destruct op; simpl in *; lia.
Qed.

Lemma total_after_nonneg ops : forall t, 0 <= t -> 0 <= total_after ops t.
Proof.
  unfold total_after.
  induction ops as [|op ops IH]; intros t Ht; simpl; [exact Ht|].
  apply IH. destruct op; simpl; lia.
Qed.

Lemma total_after_exact ops : forall t,
  never_floored t ops = true -> total_after ops t = t + adds ops - removes ops.
Proof.
  unfold total_after.
  induction ops as [|op ops IH]; intros t Hnf; simpl in *.
  - unfold adds, removes. simpl. lia.
  - apply andb_true_iff in Hnf as [Ht Hrest]. apply Z.leb_le in Ht.
    rewrite adds_cons, removes_cons.
    assert (Hnext : 0 <= (if is_add op then t + 1 else t - 1)).
    { destruct ops; simpl in Hrest.
      - apply Z.leb_le. exact Hrest.
      - apply andb_true_iff in Hrest as [Hn _]. apply Z.leb_le. exact Hn. }
    destruct op; simpl in *; rewrite ?Z.max_r by lia; rewrite IH by exact Hrest; lia.
Qed.

(** [never_floored] read over the prefixes of the sequence. *)
Lemma never_floored_prefixes ops : forall t,
  never_floored t ops = true <->
  forall p, p `prefix_of` ops -> 0 <= t + adds p - removes p.
Proof.
  induction ops as [|op ops IH]; intros t; simpl.
  - rewrite Z.leb_le. split.
    + intros Ht p Hp. apply prefix_nil_inv in Hp as ->. unfold adds, removes. simpl. lia.
    + intros Hall. specialize (Hall [] (prefix_nil _)). unfold adds, removes in Hall.
      simpl in Hall. lia.
  - rewrite andb_true_iff, Z.leb_le, IH. split.
    + intros [Ht Hrest] p Hp. destruct p as [|op' p].
      * unfold adds, removes. simpl. lia.
      * pose proof (prefix_cons_inv_1 _ _ _ _ Hp) as ->.
        apply prefix_cons_inv_2 in Hp. specialize (Hrest p Hp).
        rewrite adds_cons, removes_cons. destruct (is_add op); lia.
    + intros Hall. split.
      * specialize (Hall [] (prefix_nil _)). unfold adds, removes in Hall.
        simpl in Hall. lia.
      * intros p Hp. specialize (Hall (op :: p) (prefix_cons _ _ _ Hp)).
        rewrite adds_cons, removes_cons in Hall. destruct (is_add op); lia.
Qed.

(** C1 (as the code has it).  Take a paginated cache that starts at
    [total = T0] and a sequence of add and remove operations that stays in
    the range where the number arithmetic of the code is exact
    ([- 2^53 <= T0] and [max 0 T0 + #adds <= 2^53]).  The total it ends
    with is obtained by taking, in order, [+ 1] for each add and
    [max 0 (total - 1)] for each remove.  The floor is applied at every
    remove, not once at the end: the total is never below
    [T0 + #adds - #removes], stays at or above 0 when [T0] is, and equals
    [T0 + #adds - #removes] when the running balance never drops below 0
    along the sequence. *)
Theorem pagination_total_after_ops (S : PaginatedData) (ops : list ListOp) :
  let T0 := total (pagination S) in
  let T := total (pagination (apply_ops ops S)) in
  - exact_limit <= T0 ->
  Z.max 0 T0 + adds ops <= exact_limit ->
  T = total_after ops T0 /\
  T0 + adds ops - removes ops <= T /\
  (0 <= T0 -> 0 <= T) /\
  (never_floored T0 ops = true -> T = T0 + adds ops - removes ops).
Proof.
  cbv zeta. intros Hlo Hhi. rewrite total_apply_ops by assumption.
  split; [reflexivity|]. split; [|split].
  - apply total_after_lower.
  - apply total_after_nonneg.
  - apply total_after_exact.
Qed.

Lemma pagination_total_after_ops_witness :
  total (pagination (apply_ops
    [OpAdd (Sample.todo (JString "4") "x") (Some START);
     OpRemove (JString "2") "id";
     OpRemove (JString "9") "id"] Sample.threeTodos)) = 3 + 1 - 2.
Proof.
  destruct (pagination_total_after_ops Sample.threeTodos
    [OpAdd (Sample.todo (JString "4") "x") (Some START);
     OpRemove (JString "2") "id";
     OpRemove (JString "9") "id"]) as (_ & _ & _ & Hexact).
  - vm_compute. discriminate.
  - vm_compute. discriminate.
  - rewrite Hexact by reflexivity. reflexivity.
Defined.

(** C1 as stated fails: from [total = 0], a remove followed by an add ends
    at 1, while [T0 + #adds - #removes] floored at 0 is 0. *)
Lemma total_closed_form_counterexample :
  let ops := [OpRemove (JString "1") "id"; OpAdd (Sample.todo (JString "1") "a") None] in
  let S := Sample.page [] 0 in
  total (pagination (apply_ops ops S)) = 1 /\
  Z.max 0 (total (pagination S) + adds ops - removes ops) = 0 /\
  total (pagination (apply_ops ops S))
    <> Z.max 0 (total (pagination S) + adds ops - removes ops).
Proof. cbv zeta. split; [reflexivity|]. split; [reflexivity|]. discriminate. Qed.

(** Beyond the exact range the counter stops counting: an add at
    [total = 2^53] leaves 2^53, and a remove at [2^53 + 2] gives 2^53. *)
Example total_beyond_exact_range :
  total (pagination (PaginatedStrategy.add (Sample.page [] (2 ^ 53))
                       (Sample.todo (JString "1") "a") None)) = 2 ^ 53 /\
  total (pagination (PaginatedStrategy.remove (Sample.page [] (2 ^ 53 + 2))
                       (JString "1") "id")) = 2 ^ 53 /\
  total (pagination (apply_ops [OpRemove (JString "1") "id"; OpRemove (JString "1") "id"]
                       (Sample.page [] (2 ^ 53 + 2)))) = 2 ^ 53 - 1.
Proof. vm_compute. repeat split. Qed.

(** ** remove *)

(** C9 (as the code has it).  [PaginatedStrategy.remove] keeps exactly the
    elements whose identity differs from [id], in their order, so every
    duplicate of [id] goes at once; the total becomes
    [Math.max(0, total - 1)] whatever the number of elements that were
    filtered out, which is the total less one, floored at 0, for every
    total up to 2^53 (where [total - 1] is exact); the other pagination
    fields stay. *)
Theorem paginated_remove_decrements_once (S : PaginatedData) (id : JsValue)
    (idField : string) :
  let S' := PaginatedStrategy.remove S id idField in
  data S' = List.filter (fun e => negb (strict_eq (get e idField) id)) (data S) /\
  (forall e : Entity, e ∈ data S' <-> e ∈ data S /\ strict_eq (get e idField) id = false) /\
  data S' `sublist_of` data S /\
  occurs idField id (data S') = false /\
  total (pagination S') = Z.max 0 (number_sub (total (pagination S)) 1) /\
  (total (pagination S) <= exact_limit ->
     total (pagination S') = Z.max 0 (total (pagination S) - 1)) /\
  pagination_rest (pagination S') = pagination_rest (pagination S).
Proof.
  cbv zeta. simpl. split; [reflexivity|]. split; [|split; [|split; [|split; [|split]]]].
  - intros e. apply without_identity_elem.
  - apply without_identity_sublist.
  - apply without_identity_clean.
  - reflexivity.
  - apply floored_number_sub_exact.
  - reflexivity.
Qed.

Lemma paginated_remove_decrements_once_witness :
  total (pagination (PaginatedStrategy.remove Sample.threeTodos (JString "2") "id"))
  = Z.max 0 (3 - 1).
Proof.
  destruct (paginated_remove_decrements_once Sample.threeTodos (JString "2") "id")
    as (_ & _ & _ & _ & _ & Hexact & _).
  apply Hexact. vm_compute. discriminate.
Defined.

(** C9 as stated fails beyond 2^53: [2^53 + 2] is a double, and a remove
    at that total gives 2^53, not [2^53 + 1]. *)
Lemma remove_at_large_total_counterexample :
  let S := Sample.page [Sample.todo (JString "1") "a"] (2 ^ 53 + 2) in
  round_to_double (total (pagination S)) = total (pagination S) /\
  total (pagination (PaginatedStrategy.remove S (JString "1") "id")) = 2 ^ 53 /\
  total (pagination (PaginatedStrategy.remove S (JString "1") "id"))
    <> Z.max 0 (total (pagination S) - 1).
Proof. cbv zeta. split; [reflexivity|]. split; [reflexivity|]. discriminate. Qed.

(** Zero, one and two elements removed: the total goes from 3 to 2 each time. *)
Example remove_none_one_two :
  let dup := Sample.page [Sample.todo (JString "1") "a"; Sample.todo (JString "2") "b";
                          Sample.todo (JString "2") "c"] 3 in
  let r0 := PaginatedStrategy.remove dup (JString "9") "id" in
  let r1 := PaginatedStrategy.remove dup (JString "1") "id" in
  let r2 := PaginatedStrategy.remove dup (JString "2") "id" in
  (length (data r0), total (pagination r0)) = (3%nat, 2) /\
  (length (data r1), total (pagination r1)) = (2%nat, 2) /\
  (length (data r2), total (pagination r2)) = (1%nat, 2) /\
  total (pagination (PaginatedStrategy.remove (Sample.page [] 0) (JString "1") "id")) = 0.
Proof. vm_compute. repeat split. Qed.

(** C3 (as the code has it).  A remove whose identity is absent from the
    cached data leaves [data] as it was in every shape; in the paginated
    shape the total is recomputed all the same, as [Math.max(0, total - 1)]:
    one less, floored at 0, for every total up to 2^53; the other
    pagination fields are unchanged. *)
Theorem remove_absent_identity (idField : string) (id : JsValue) :
  (forall S : PaginatedData, occurs idField id (data S) = false ->
     data (PaginatedStrategy.remove S id idField) = data S /\
     pagination (PaginatedStrategy.remove S id idField)
       = with_total (pagination S) (Z.max 0 (number_sub (total (pagination S)) 1)) /\
     (total (pagination S) <= exact_limit ->
        pagination (PaginatedStrategy.remove S id idField)
          = with_total (pagination S) (Z.max 0 (total (pagination S) - 1)))) /\
  (forall S : SimpleListData, occurs idField id (list_data S) = false ->
     SimpleListStrategy.remove S id idField = S) /\
  (forall a : list Entity, occurs idField id a = false ->
     ArrayStrategy.remove a id idField = a).
Proof.
  split; [|split].
  - intros S Habs. split; [|split; [reflexivity|]].
    + simpl. apply without_identity_absent, Habs.
    + intros Hhi. simpl. rewrite floored_number_sub_exact by exact Hhi. reflexivity.
  - intros [xs rest] Habs. unfold SimpleListStrategy.remove, with_data. simpl in *.
    rewrite without_identity_absent by exact Habs. reflexivity.
  - intros a Habs. apply without_identity_absent, Habs.
Qed.

Lemma remove_absent_identity_witness :
  data (PaginatedStrategy.remove Sample.threeTodos (JString "9") "id")
    = data Sample.threeTodos /\
  total (pagination (PaginatedStrategy.remove Sample.threeTodos (JString "9") "id")) = 2 /\
  ArrayStrategy.remove (data Sample.threeTodos) (JString "9") "id" = data Sample.threeTodos.
Proof.
  destruct (remove_absent_identity "id" (JString "9")) as (Hpage & _ & Harray).
  destruct (Hpage Sample.threeTodos) as (Hdata & _ & Hpagination); [reflexivity|].
  split; [exact Hdata|]. split.
  - rewrite Hpagination; [reflexivity | vm_compute; discriminate].
  - apply Harray. reflexivity.
Defined.

(** C3 as stated fails for the paginated shape: ["9"] is absent from the
    three cached todos, and removing it takes the total from 3 to 2. *)
Lemma remove_absent_changes_total :
  occurs "id" (JString "9") (data Sample.threeTodos) = false /\
  total (pagination (PaginatedStrategy.remove Sample.threeTodos (JString "9") "id"))
    <> total (pagination Sample.threeTodos).
Proof. split; [reflexivity | discriminate]. Qed.

(** ** replace *)

(** C7.  [PaginatedStrategy.replace] returns the given items as [data] and
    their number as [pagination.total], whatever was cached before; the
    other pagination fields are kept. *)
Theorem paginated_replace_resets_total (S : PaginatedData) (items : list Entity) :
  data (PaginatedStrategy.replace S items) = items /\
  total (pagination (PaginatedStrategy.replace S items)) = Z.of_nat (length items) /\
  pagination_rest (pagination (PaginatedStrategy.replace S items))
    = pagination_rest (pagination S).
Proof. split; [|split]; reflexivity. Qed.

Example replace_three_by_one :
  PaginatedStrategy.replace Sample.threeTodos [Sample.todo (JString "7") "g"]
  = Sample.page [Sample.todo (JString "7") "g"] 1.
Proof. reflexivity. Qed.

(** ** update *)

(** C8.  In every shape [update] puts [item] at exactly the positions whose
    element has [item]'s identity and leaves the other positions, the
    length and the remaining fields alone; when no element matches, the
    whole value (for the paginated shape the pagination object too) is
    returned unchanged.  The paginated result is a fresh
    [{ data, pagination }]: it is the cached value itself when that owns no
    other field. *)
Theorem update_replaces_matching (idField : string) (item : Entity) :
  (forall S : PaginatedData,
     updated_exactly idField item (data S)
       (data (PaginatedStrategy.update S item idField)) /\
     pagination (PaginatedStrategy.update S item idField) = pagination S /\
     (occurs idField (get item idField) (data S) = false ->
        PaginatedStrategy.update S item idField
          = {| data := data S; pagination := pagination S; paginated_rest := ∅ |} /\
        (paginated_rest S = ∅ -> PaginatedStrategy.update S item idField = S))) /\
  (forall S : SimpleListData,
     updated_exactly idField item (list_data S)
       (list_data (SimpleListStrategy.update S item idField)) /\
     list_rest (SimpleListStrategy.update S item idField) = list_rest S /\
     (occurs idField (get item idField) (list_data S) = false ->
        SimpleListStrategy.update S item idField = S)) /\
  (forall a : list Entity,
     updated_exactly idField item a (ArrayStrategy.update a item idField) /\
     (occurs idField (get item idField) a = false ->
        ArrayStrategy.update a item idField = a)).
Proof.
  split; [|split].
  - intros [xs p other]. split; [apply replace_matching_exact|]. split; [reflexivity|].
    intros Habs. unfold PaginatedStrategy.update. simpl in *.
    rewrite replace_matching_absent by exact Habs.
    split; [reflexivity | intros ->; reflexivity].
  - intros [xs rest]. split; [apply replace_matching_exact|]. split; [reflexivity|].
    intros Habs. unfold SimpleListStrategy.update, with_data. simpl in *.
    rewrite replace_matching_absent by exact Habs. reflexivity.
  - intros a. split; [apply replace_matching_exact|].
    intros Habs. apply replace_matching_absent, Habs.
Qed.

Lemma update_replaces_matching_witness :
  PaginatedStrategy.update Sample.threeTodos (Sample.todo (JString "9") "z") "id"
    = Sample.threeTodos /\
  data (PaginatedStrategy.update Sample.threeTodos (Sample.todo (JString "2") "z") "id")
    !! 1%nat = Some (Sample.todo (JString "2") "z").
Proof.
  destruct (update_replaces_matching "id" (Sample.todo (JString "9") "z")) as (Hpage & _ & _).
  destruct (Hpage Sample.threeTodos) as (_ & _ & Hnoop).
  split; [apply Hnoop; reflexivity|].
  destruct (update_replaces_matching "id" (Sample.todo (JString "2") "z")) as (Hpage2 & _ & _).
  destruct (Hpage2 Sample.threeTodos) as ((_ & Hat) & _ & _).
  apply (Hat 1%nat (Sample.todo (JString "2") "b")); reflexivity.
Defined.

(** ** upsert *)

Lemma upsert_list_found idField item xs :
  occurs idField (get item idField) xs = true ->
  occurs idField (get item idField) (replace_matching idField item xs) = true.
Proof. intros Hocc. rewrite replace_matching_keeps_match. exact Hocc. Qed.

Lemma upsert_list_added idField item xs :
  strict_eq (get item idField) (get item idField) = true ->
  occurs idField (get item idField) xs = false ->
  occurs idField (get item idField) (item :: xs) = true /\
  replace_matching idField item (item :: xs) = item :: xs.
Proof.
  intros Hself Habs. unfold occurs, replace_matching, same_identity. simpl.
  rewrite Hself. split; [reflexivity|].
  f_equal. apply replace_matching_absent, Habs.
Qed.








Lemma paginated_upsert_cases (S : PaginatedData) item idField :
  PaginatedStrategy.upsert S item idField =
  if occurs idField (get item idField) (data S)
  then PaginatedStrategy.update S item idField
  else PaginatedStrategy.add S item None.
Proof. unfold PaginatedStrategy.upsert. rewrite findIndex_occurs. reflexivity. Qed.

Lemma simple_list_upsert_cases (S : SimpleListData) item idField :
  SimpleListStrategy.upsert S item idField =
  if occurs idField (get item idField) (list_data S)
  then SimpleListStrategy.update S item idField
  else SimpleListStrategy.add S item None.
Proof. unfold SimpleListStrategy.upsert. rewrite findIndex_occurs. reflexivity. Qed.

Lemma array_upsert_cases (a : list Entity) item idField :
  ArrayStrategy.upsert a item idField =
  if occurs idField (get item idField) a
  then ArrayStrategy.update a item idField
  else ArrayStrategy.add a item None.
Proof. unfold ArrayStrategy.upsert. rewrite findIndex_occurs. reflexivity. Qed.

(** C4 (as the code has it).  In every shape, upserting the same item twice
    gives what upserting it once gives, for every item whose identity value
    is strictly equal to itself, that is for every identity value but
    [NaN]. *)
Theorem upsert_idempotent (idField : string) (item : Entity) :
  strict_eq (get item idField) (get item idField) = true ->
  (forall S : PaginatedData,
     PaginatedStrategy.upsert (PaginatedStrategy.upsert S item idField) item idField
     = PaginatedStrategy.upsert S item idField) /\
  (forall S : SimpleListData,
     SimpleListStrategy.upsert (SimpleListStrategy.upsert S item idField) item idField
     = SimpleListStrategy.upsert S item idField) /\
  (forall a : list Entity,
     ArrayStrategy.upsert (ArrayStrategy.upsert a item idField) item idField
     = ArrayStrategy.upsert a item idField).
Proof.
  intros Hself. split; [|split].
  - intros [xs p other]. rewrite (paginated_upsert_cases (mkPaginated xs p other)).
    rewrite paginated_upsert_cases.
    change (data (mkPaginated xs p other)) with xs.
    destruct (occurs idField (get item idField) xs) eqn:Hocc.
    + change (data (PaginatedStrategy.update (mkPaginated xs p other) item idField))
        with (replace_matching idField item xs).
      rewrite (upsert_list_found _ _ _ Hocc).
      unfold PaginatedStrategy.update. cbn [data pagination].
      rewrite replace_matching_idem. reflexivity.
    + destruct (upsert_list_added _ _ _ Hself Hocc) as [Hnow Hsame].
      change (data (PaginatedStrategy.add (mkPaginated xs p other) item None)) with (item :: xs).
      rewrite Hnow. unfold PaginatedStrategy.update, PaginatedStrategy.add, insert_at.
      cbn [data pagination position_or_default default]. rewrite Hsame. reflexivity.
  - intros [xs rest]. rewrite (simple_list_upsert_cases (mkSimpleList xs rest)).
    rewrite simple_list_upsert_cases.
    change (list_data (mkSimpleList xs rest)) with xs.
    destruct (occurs idField (get item idField) xs) eqn:Hocc.
    + change (list_data (SimpleListStrategy.update (mkSimpleList xs rest) item idField))
        with (replace_matching idField item xs).
      rewrite (upsert_list_found _ _ _ Hocc).
      unfold SimpleListStrategy.update, with_data. cbn [list_data list_rest].
      rewrite replace_matching_idem. reflexivity.
    + destruct (upsert_list_added _ _ _ Hself Hocc) as [Hnow Hsame].
      change (list_data (SimpleListStrategy.add (mkSimpleList xs rest) item None))
        with (item :: xs).
      rewrite Hnow.
      unfold SimpleListStrategy.update, SimpleListStrategy.add, with_data, insert_at.
      cbn [list_data list_rest position_or_default default]. rewrite Hsame. reflexivity.
  - intros a. rewrite (array_upsert_cases a), array_upsert_cases.
    destruct (occurs idField (get item idField) a) eqn:Hocc.
    + unfold ArrayStrategy.update. rewrite (upsert_list_found _ _ _ Hocc).
      apply replace_matching_idem.
    + destruct (upsert_list_added _ _ _ Hself Hocc) as [Hnow Hsame].
      change (ArrayStrategy.add a item None) with (item :: a).
      rewrite Hnow. unfold ArrayStrategy.update. exact Hsame.
Qed.

Lemma upsert_idempotent_witness :
  PaginatedStrategy.upsert
    (PaginatedStrategy.upsert Sample.threeTodos (Sample.todo (JString "4") "d") "id")
    (Sample.todo (JString "4") "d") "id"
  = PaginatedStrategy.upsert Sample.threeTodos (Sample.todo (JString "4") "d") "id".
Proof.
  destruct (upsert_idempotent "id" (Sample.todo (JString "4") "d") eq_refl) as (Hpage & _ & _).
  apply Hpage.
Defined.

(** C4 as stated fails: an item whose identity is [NaN] never matches, not
    even itself, so each upsert adds one more copy. *)
Lemma upsert_NaN_not_idempotent :
  let item := Sample.todo num_NaN "x" in
  length (ArrayStrategy.upsert [] item "id") = 1%nat /\
  length (ArrayStrategy.upsert (ArrayStrategy.upsert [] item "id") item "id") = 2%nat /\
  ArrayStrategy.upsert (ArrayStrategy.upsert [] item "id") item "id"
    <> ArrayStrategy.upsert [] item "id".
Proof.
  cbv zeta. split; [reflexivity|]. split; [reflexivity|].
  intros Heq. apply (f_equal length) in Heq. vm_compute in Heq. discriminate.
Qed.

(** * Properties of the cache managers *)

Ltac unfold_run :=
  unfold mbind, mret, Run_bind, Run_ret, run_bind, run_ret, try_catch,
    inspect, perform, complete in *.

Section ManagerProperties.
Context {Cache : Type} `{ApolloCache Cache} `{JsRuntime}.

(** ** Reads and writes *)

Lemma try_catch_false_returns (body : Run Cache bool) (c : Cache) :
  exists b c', try_catch body (fun _ => mret false) c = (Ok b, c').
Proof.
  unfold_run. destruct (body c) as [[b|e] c']; eauto.
Qed.

Lemma readCacheData_returns (config : CacheConfig) (c : Cache) :
  exists r, readCacheData config c = (Ok r, c).
Proof.
  unfold readCacheData. unfold_run.
  destruct (readQuery c _ _) as [[cacheData|]|e]; eauto.
Qed.

Lemma readCacheData_missing (config : CacheConfig) (c : Cache) :
  read_fails c config -> readCacheData config c = (Ok None, c).
Proof.
  unfold read_fails, readCacheData. unfold_run.
  intros [-> | [e ->]]; reflexivity.
Qed.

Lemma readCacheData_keyed (config : CacheConfig) (c : Cache) cacheData key :
  readQuery c (CacheConfig.query config) (CacheConfig.variables config)
    = Ok (Some cacheData) ->
  non_empty (CacheConfig.queryResultKey config) = Some key ->
  readCacheData config c = (Ok (cacheData !! key), c).
Proof.
  unfold readCacheData. unfold_run. intros -> ->. reflexivity.
Qed.


(** ** [OptimisticCacheManager] *)









(** ** [EntityCacheManager] *)


Lemma entity_execute_unregistered this operation (c : Cache) :
  EntityCacheManager.entities this !! EntityOperation.entityKey operation = None ->
  EntityCacheManager.executeOperation this operation c = (Ok false, c).
Proof.
  intros Hk. unfold EntityCacheManager.executeOperation. rewrite Hk. reflexivity.
Qed.

Lemma entity_execute_no_strategy this operation (c : Cache) :
  EntityCacheManager.strategies this !! EntityOperation.entityKey operation = None ->
  EntityCacheManager.executeOperation this operation c = (Ok false, c).
Proof.
  intros Hk. unfold EntityCacheManager.executeOperation. rewrite Hk.
  destruct (EntityCacheManager.entities this !! _); reflexivity.
Qed.



Lemma getCachedData_returns this entityKey (c : Cache) :
  exists r, EntityCacheManager.getCachedData this entityKey c = (Ok r, c).
Proof.
  unfold EntityCacheManager.getCachedData.
  destruct (EntityCacheManager.entities this !! entityKey) as [config|].
  - apply readCacheData_returns.
  - eexists. reflexivity.
Qed.

Lemma getCachedData_unregistered this entityKey (c : Cache) :
  EntityCacheManager.entities this !! entityKey = None ->
  EntityCacheManager.getCachedData this entityKey c = (Ok None, c).
Proof. intros Hk. unfold EntityCacheManager.getCachedData. rewrite Hk. reflexivity. Qed.

Lemma getCachedData_registered this entityKey (c : Cache) config :
  EntityCacheManager.entities this !! entityKey = Some config ->
  EntityCacheManager.getCachedData this entityKey c = readCacheData config c.
Proof. intros Hk. unfold EntityCacheManager.getCachedData. rewrite Hk. reflexivity. Qed.




End ManagerProperties.

(** ** Eviction after a remove *)

Section Eviction.
Context {Cache : Type} `{ApolloCache Cache} `{JsRuntime}.

(** [OptimisticCacheManager]: a [REMOVE] that returns [true] under a
    configured entity name has written the list and then evicted the
    record [identify] named, whatever the removed identity is; nothing is
    evicted only when [identify] answers [undefined]. *)
Lemma optimistic_remove_evicts this id name (c c' : Cache) :
  non_empty (CacheConfig.entityName (OptimisticCacheManager.config this)) = Some name ->
  OptimisticCacheManager.executeOperation this (CacheOperation.REMOVE id) c = (Ok true, c') ->
  exists c1 cacheData,
    writeQuery c (CacheConfig.query (OptimisticCacheManager.config this))
      (CacheConfig.variables (OptimisticCacheManager.config this)) cacheData = Ok c1 /\
    ((exists cacheId,
        identify c1 name (OptimisticCacheManager.idField this) id = Ok (Some cacheId) /\
        evict c1 cacheId = Ok c') \/
     (identify c1 name (OptimisticCacheManager.idField this) id = Ok None /\ c' = c1)).
Proof.
  intros Hn Hexec. unfold OptimisticCacheManager.executeOperation in Hexec.
  unfold try_catch, mbind, Run_bind, run_bind in Hexec.
  destruct (readCacheData_returns (OptimisticCacheManager.config this) c) as [[d|] Hread];
    rewrite Hread in Hexec; [|discriminate].
  unfold complete in Hexec.
  destruct (OptimisticCacheManager.applyOperation this d _) as [u|e]; [|discriminate].
  unfold writeCacheData, perform in Hexec.
  match type of Hexec with context [writeQuery c ?q ?v ?cd] =>
    destruct (writeQuery c q v cd) as [c1|e] eqn:Hw; [exists c1, cd|discriminate] end.
  split; [exact Hw|].
  unfold OptimisticCacheManager.evictRemoved in Hexec. rewrite Hn in Hexec.
  unfold_run.
  destruct (identify c1 name _ id) as [[cacheId|]|e] eqn:Hid; try discriminate.
  - destruct (evict c1 cacheId) as [c2|e] eqn:He; [|discriminate].
    left. exists cacheId. split; [reflexivity|]. congruence.
  - right. split; [reflexivity|]. congruence.
Qed.

(** [EntityCacheManager]: the same holds when the removed identity is
    truthy. *)
Lemma entity_remove_evicts this operation config name (c c' : Cache) :
  EntityOperation.type operation = REMOVE ->
  EntityCacheManager.entities this !! EntityOperation.entityKey operation = Some config ->
  non_empty (CacheConfig.entityName config) = Some name ->
  truthy (EntityOperation.id operation) = true ->
  EntityCacheManager.executeOperation this operation c = (Ok true, c') ->
  exists c1 cacheData,
    writeQuery c (CacheConfig.query config) (CacheConfig.variables config) cacheData
      = Ok c1 /\
    ((exists cacheId,
        identify c1 name (default "id" (CacheConfig.idField config))
          (EntityOperation.id operation) = Ok (Some cacheId) /\
        cacheId <> "" /\ evict c1 cacheId = Ok c') \/
     ((forall cacheId,
         identify c1 name (default "id" (CacheConfig.idField config))
           (EntityOperation.id operation) = Ok (Some cacheId) -> cacheId = "") /\
      c' = c1)).
Proof.
  intros Ht Hk Hn Hid Hexec. unfold EntityCacheManager.executeOperation in Hexec.
  rewrite Hk in Hexec.
  destruct (EntityCacheManager.strategies this !! _) as [strategy|]; [|discriminate].
  unfold try_catch, mbind, Run_bind, run_bind in Hexec.
  destruct (readCacheData_returns config c) as [[d|] Hread];
    rewrite Hread in Hexec; [|discriminate].
  destruct (EntityCacheManager.applyOperation strategy d _ operation) as [[u|e]|];
    try discriminate.
  unfold complete, writeCacheData, perform in Hexec.
  match type of Hexec with context [writeQuery c ?q ?v ?cd] =>
    destruct (writeQuery c q v cd) as [c1|e] eqn:Hw; [exists c1, cd|discriminate] end.
  split; [exact Hw|].
  unfold EntityCacheManager.evictRemoved in Hexec. rewrite Ht, Hn, Hid in Hexec.
  unfold_run.
  destruct (identify c1 name _ _) as [[cacheId|]|e] eqn:Hident; try discriminate.
  - simpl in Hexec. destruct (String.eqb_spec cacheId "") as [->|Hne].
    + right. split; [|congruence]. intros cacheId' Heq. congruence.
    + destruct (evict c1 cacheId) as [c2|e] eqn:He; [|discriminate].
      left. exists cacheId. repeat split; congruence.
  - right. split; [|simpl in Hexec; congruence]. intros cacheId Heq. discriminate.
Qed.

(** [EntityCacheManager]: with a falsy identity ([0], [-0], [NaN], the
    empty string) the store is left exactly as the write left it; neither
    [identify] nor [evict] is called. *)
Lemma entity_remove_falsy_id_only_writes this operation (c c' : Cache) config :
  EntityCacheManager.entities this !! EntityOperation.entityKey operation = Some config ->
  truthy (EntityOperation.id operation) = false ->
  EntityCacheManager.executeOperation this operation c = (Ok true, c') ->
  exists cacheData,
    writeQuery c (CacheConfig.query config) (CacheConfig.variables config) cacheData
      = Ok c'.
Proof.
  intros Hk Hid Hexec. unfold EntityCacheManager.executeOperation in Hexec.
  rewrite Hk in Hexec.
  destruct (EntityCacheManager.strategies this !! _) as [strategy|]; [|discriminate].
  unfold try_catch, mbind, Run_bind, run_bind in Hexec.
  destruct (readCacheData_returns config c) as [[d|] Hread];
    rewrite Hread in Hexec; [|discriminate].
  destruct (EntityCacheManager.applyOperation strategy d _ operation) as [[u|e]|];
    try discriminate.
  unfold complete, writeCacheData, perform in Hexec.
  match type of Hexec with context [writeQuery c ?q ?v ?cd] =>
    destruct (writeQuery c q v cd) as [c1|e] eqn:Hw; [exists cd|discriminate] end.
  unfold EntityCacheManager.evictRemoved in Hexec. rewrite Hid in Hexec.
  destruct (EntityOperation.type operation), (non_empty (CacheConfig.entityName config));
    unfold_run; congruence.
Qed.

(** ** Registration with an unsupported shape *)

Lemma select_strategy_none dataStructure :
  select_strategy dataStructure = None <->
  dataStructure <> DataStructure.PAGINATED /\
  dataStructure <> DataStructure.SIMPLE_LIST /\
  dataStructure <> DataStructure.ARRAY.
Proof.
  unfold select_strategy.
  destruct (String.eqb_spec dataStructure DataStructure.PAGINATED);
    [split; [discriminate | tauto]|].
  destruct (String.eqb_spec dataStructure DataStructure.SIMPLE_LIST);
    [split; [discriminate | tauto]|].
  destruct (String.eqb_spec dataStructure DataStructure.ARRAY);
    [split; [discriminate | tauto]|].
  tauto.
Qed.

(** C10 (as the code has it).  [registerEntity] with an unrecognized shape
    throws only after it has put the configuration into the entity map,
    and leaves the strategy map as it was.  [getCachedData] for the key
    then reads through the new configuration and returns what is cached.
    When the key had no strategy bound before the failed registration,
    [executeOperation] for it returns [false] at the strategy lookup and
    leaves the store untouched; a strategy bound by an earlier
    registration of the key stays bound. *)
Theorem registerEntity_unsupported_shape this entityKey config :
  select_strategy (CacheConfig.dataStructure config) = None ->
  let this' := snd (EntityCacheManager.registerEntity this entityKey config) in
  fst (EntityCacheManager.registerEntity this entityKey config)
    = Throw (unsupported (CacheConfig.dataStructure config)) /\
  EntityCacheManager.entities this' !! entityKey = Some config /\
  EntityCacheManager.strategies this' = EntityCacheManager.strategies this /\
  (forall c : Cache,
     EntityCacheManager.getCachedData this' entityKey c = readCacheData config c) /\
  (forall (c : Cache) cacheData key,
     readQuery c (CacheConfig.query config) (CacheConfig.variables config)
       = Ok (Some cacheData) ->
     non_empty (CacheConfig.queryResultKey config) = Some key ->
     EntityCacheManager.getCachedData this' entityKey c = (Ok (cacheData !! key), c)) /\
  (EntityCacheManager.strategies this !! entityKey = None ->
   forall operation (c : Cache),
     EntityOperation.entityKey operation = entityKey ->
     EntityCacheManager.executeOperation this' operation c = (Ok false, c)).
Proof.
  intros Hsel. unfold EntityCacheManager.registerEntity. rewrite Hsel. cbn [fst snd].
  assert (Hreg : EntityCacheManager.entities
            {| EntityCacheManager.entities :=
                 <[entityKey := config]> (EntityCacheManager.entities this);
               EntityCacheManager.strategies := EntityCacheManager.strategies this |}
            !! entityKey = Some config) by apply lookup_insert_eq.
  split; [reflexivity|]. split; [exact Hreg|]. split; [reflexivity|].
  split; [|split].
  - intros c. apply getCachedData_registered, Hreg.
  - intros c cacheData key Hread Hkey.
    rewrite (getCachedData_registered _ _ _ _ Hreg).
    apply readCacheData_keyed; assumption.
  - intros Hnone operation c <-. apply entity_execute_no_strategy. exact Hnone.
Qed.

End Eviction.

(** * The managers on the sample store *)

Example todosManager_is_constructed :
  OptimisticCacheManager.new (Sample.todosConfig DataStructure.PAGINATED)
  = Ok Sample.todosManager.
Proof. reflexivity. Qed.

(** Scenario 1 of the specification: adding [{id: '4'}] at [START] to a
    page with [total = 3] puts it first and makes the total 4. *)
Example add_at_start_scenario :
  let S' := PaginatedStrategy.add Sample.threeTodos (Sample.todo (JString "4") "x")
              (Some START) in
  (fun e => get e "id") <$> data S' !! 0%nat = Some (JString "4") /\
  total (pagination S') = 4.
Proof. split; reflexivity. Qed.



(** C5.  The claim holds for [OptimisticCacheManager] and fails for
    [EntityCacheManager] at a falsy identity.  Removing the todo whose id
    is the number 0: both managers return [true] and write the list without
    it; [OptimisticCacheManager] evicts the record [Todo:0],
    [EntityCacheManager] leaves it in the store, since its eviction guard
    tests the truthiness of [operation.id].  With the id 42 both evict. *)
Theorem entity_remove_zero_id_keeps_record :
  let viaEntity :=
    EntityCacheManager.executeOperation (Sample.registry DataStructure.PAGINATED)
      (Sample.removeOperation "todos" num_zero) Sample.zeroStore in
  let viaOptimistic :=
    OptimisticCacheManager.executeOperation Sample.todosManager
      (CacheOperation.REMOVE num_zero) Sample.zeroStore in
  let viaEntity42 :=
    EntityCacheManager.executeOperation (Sample.registry DataStructure.PAGINATED)
      (Sample.removeOperation "todos" (num_pos 42)) Sample.fortyTwoStore in
  InMemoryCache.records Sample.zeroStore !! "Todo:0" = Some ∅ /\
  fst viaEntity = Ok true /\
  InMemoryCache.queries (snd viaEntity)
    = [((Sample.GetTodos, None), {[ "todos" := Paginated (Sample.page [] 0) ]})] /\
  InMemoryCache.records (snd viaEntity) !! "Todo:0" = Some ∅ /\
  fst viaOptimistic = Ok true /\
  InMemoryCache.queries (snd viaOptimistic) = InMemoryCache.queries (snd viaEntity) /\
  InMemoryCache.records (snd viaOptimistic) !! "Todo:0" = None /\
  fst viaEntity42 = Ok true /\
  InMemoryCache.records (snd viaEntity42) !! "Todo:42" = None.
Proof. vm_compute. repeat split. Qed.

Lemma registerEntity_unsupported_shape_witness :
  let failed := EntityCacheManager.registerEntity EntityCacheManager.new "todos"
                  (Sample.todosConfig "grid") in
  fst failed = Throw (unsupported "grid") /\
  EntityCacheManager.entities (snd failed) !! "todos" = Some (Sample.todosConfig "grid") /\
  EntityCacheManager.executeOperation (snd failed)
    (Sample.addOperation "todos" (Sample.todo (JString "4") "x"))
    (Sample.storeWith (Paginated Sample.threeTodos) [])
    = (Ok false, Sample.storeWith (Paginated Sample.threeTodos) []) /\
  EntityCacheManager.getCachedData (snd failed) "todos"
    (Sample.storeWith (Paginated Sample.threeTodos) [])
    = (Ok (Some (Paginated Sample.threeTodos)),
       Sample.storeWith (Paginated Sample.threeTodos) []).
Proof.
  cbv zeta.
  destruct (registerEntity_unsupported_shape (Cache := InMemoryCache.t)
              EntityCacheManager.new "todos" (Sample.todosConfig "grid") eq_refl)
    as (Hthrow & Hconfig & _ & _ & Hread & Hexec).
  split; [exact Hthrow|]. split; [exact Hconfig|]. split.
  - apply Hexec; reflexivity.
  - rewrite (Hread (Sample.storeWith (Paginated Sample.threeTodos) [])
               {[ "todos" := Paginated Sample.threeTodos ]} "todos");
      reflexivity.
Defined.

(** C10 as stated fails when the key was registered before: the failed
    registration replaces the configuration and leaves the earlier
    [ArrayStrategy] bound, so [executeOperation] does not stop at the
    strategy lookup; here it adds to the cached array and returns [true]. *)
Lemma registerEntity_rebinding_counterexample :
  let failed := EntityCacheManager.registerEntity (Sample.registry DataStructure.ARRAY)
                  "todos" (Sample.todosConfig "grid") in
  let store := Sample.storeWith (RawArray [Sample.todo (JString "1") "a"]) [] in
  let result := EntityCacheManager.executeOperation (snd failed)
                  (Sample.addOperation "todos" (Sample.todo (JString "2") "b")) store in
  fst failed = Throw (unsupported "grid") /\
  EntityCacheManager.entities (snd failed) !! "todos" = Some (Sample.todosConfig "grid") /\
  EntityCacheManager.strategies (snd failed) !! "todos" = Some arrayStrategy /\
  fst result = Ok true /\
  fst result <> Ok false /\
  InMemoryCache.queries (snd result)
    = [((Sample.GetTodos, None),
        {[ "todos" := RawArray [Sample.todo (JString "2") "b";
                                Sample.todo (JString "1") "a"] ]})].
Proof. vm_compute. repeat split. discriminate. Qed.

(** * Further properties of the strategies *)

(** ** Strict equality is a partial equivalence *)

Lemma SFeqb_true_inv (x y : spec_float) :
  SFeqb x y = true ->
  (exists s s', x = S754_zero s /\ y = S754_zero s') \/ (x = y /\ x <> S754_nan).
Proof.
  unfold SFeqb, SFcompare.
  destruct x as [sx|sx| |sx mx ex], y as [sy|sy| |sy my ey]; try discriminate;
    try (destruct sx; discriminate); try (destruct sy; discriminate).
  - intros _. left. eauto.
  - destruct sx, sy; try discriminate; intros _; right; split; congruence.
  - destruct sx, sy; try discriminate;
      destruct (Z.compare_spec ex ey) as [->| |]; try discriminate;
      change (PosDef.Pos.compare_cont Eq mx my) with (Pos.compare mx my);
      destruct (Pos.compare_spec mx my) as [->| |]; try discriminate;
      intros _; right; split; congruence.
Qed.

Lemma strict_eq_true_cong (a b : JsValue) :
  strict_eq a b = true ->
  forall c, strict_eq a c = strict_eq b c /\ strict_eq c a = strict_eq c b.
Proof.
  destruct a as [| |x|x|x|x], b as [| |y|y|y|y]; simpl; try discriminate; intros Hab c.
  - split; reflexivity.
  - split; reflexivity.
  - apply Bool.eqb_prop in Hab as ->. split; reflexivity.
  - destruct (SFeqb_true_inv _ _ Hab) as [(s & s' & -> & ->) | [-> _]];
      [|split; reflexivity].
    destruct c as [| |z|z|z|z]; simpl; try (split; reflexivity);
      destruct z; split; reflexivity.
  - apply String.eqb_eq in Hab as ->. split; reflexivity.
  - apply N.eqb_eq in Hab as ->. split; reflexivity.
Qed.

Lemma strict_eq_sym_true (a b : JsValue) : strict_eq a b = true -> strict_eq b a = true.
Proof.
  intros Hab. destruct (strict_eq_true_cong a b Hab b) as [_ ->].
  exact (strict_eq_self_r _ _ Hab).
Qed.

Lemma strict_eq_sym (a b : JsValue) : strict_eq a b = strict_eq b a.
Proof.
  destruct (strict_eq a b) eqn:Hab.
  - symmetry. apply strict_eq_sym_true, Hab.
  - destruct (strict_eq b a) eqn:Hba; [|reflexivity].
    apply strict_eq_sym_true in Hba. congruence.
Qed.

Lemma occurs_cong idField a b xs :
  strict_eq a b = true -> occurs idField a xs = occurs idField b xs.
Proof.
  intros Hab. unfold occurs. induction xs as [|e rest IH]; simpl; [reflexivity|].
  rewrite IH. destruct (strict_eq_true_cong a b Hab (get e idField)) as [_ ->].
  reflexivity.
Qed.

(** ** add and remove *)

Lemma without_identity_insert_at idField item position xs :
  strict_eq (get item idField) (get item idField) = true ->
  occurs idField (get item idField) xs = false ->
  without_identity idField (get item idField) (insert_at position item xs) = xs.
Proof.
  intros Hself Habs. unfold insert_at, without_identity.
  destruct (position_or_default position).
  - simpl. unfold other_identity at 1. rewrite Hself. simpl.
    apply without_identity_absent, Habs.
  - rewrite List.filter_app. simpl. unfold other_identity at 2. rewrite Hself. simpl.
    rewrite app_nil_r. apply without_identity_absent, Habs.
Qed.

(** X1.  Removing the identity of an item that was just added gives back
    the cached [data], at either position and in every shape, when the
    identity was absent before and is not [NaN].  For a page whose total
    is in the exact range ([- 2^53 <= total < 2^53]) the total comes back
    as [max 0 total] and the other pagination fields as they were, so the
    pagination object is restored when the total was not negative; the
    result owns [data] and [pagination] only, and is the cached value
    itself when that owned nothing else. *)
Theorem remove_undoes_add (idField : string) (item : Entity) (position : option Position) :
  strict_eq (get item idField) (get item idField) = true ->
  (forall S : PaginatedData,
     occurs idField (get item idField) (data S) = false ->
     - exact_limit <= total (pagination S) < exact_limit ->
     let S' := PaginatedStrategy.remove (PaginatedStrategy.add S item position)
                 (get item idField) idField in
     data S' = data S /\
     total (pagination S') = Z.max 0 (total (pagination S)) /\
     pagination_rest (pagination S') = pagination_rest (pagination S) /\
     paginated_rest S' = ∅ /\
     (0 <= total (pagination S) -> pagination S' = pagination S) /\
     (0 <= total (pagination S) -> paginated_rest S = ∅ -> S' = S)) /\
  (forall S : SimpleListData,
     occurs idField (get item idField) (list_data S) = false ->
     SimpleListStrategy.remove (SimpleListStrategy.add S item position)
       (get item idField) idField = S) /\
  (forall a : list Entity,
     occurs idField (get item idField) a = false ->
     ArrayStrategy.remove (ArrayStrategy.add a item position) (get item idField) idField
     = a).
Proof.
  intros Hself. split; [|split].
  - intros [xs [t rest] other] Habs Hrange. cbv zeta.
    unfold PaginatedStrategy.remove, PaginatedStrategy.add, with_total.
    cbn [data pagination total pagination_rest paginated_rest] in *.
    rewrite (without_identity_insert_at _ _ _ _ Hself Habs).
    rewrite number_add_exact by lia.
    rewrite floored_number_sub_exact by lia.
    replace (t + 1 - 1) with t by lia.
    split; [reflexivity|]. split; [reflexivity|]. split; [reflexivity|].
    split; [reflexivity|]. split.
    + intros Ht. rewrite Z.max_r by exact Ht. reflexivity.
    + intros Ht ->. rewrite Z.max_r by exact Ht. reflexivity.
  - intros [xs rest] Habs.
    unfold SimpleListStrategy.remove, SimpleListStrategy.add, with_data.
    cbn [list_data list_rest] in *.
    rewrite (without_identity_insert_at _ _ _ _ Hself Habs). reflexivity.
  - intros a Habs. apply without_identity_insert_at; assumption.
Qed.

Lemma remove_undoes_add_witness :
  PaginatedStrategy.remove
    (PaginatedStrategy.add Sample.threeTodos (Sample.todo (JString "4") "d") (Some END))
    (JString "4") "id"
  = Sample.threeTodos.
Proof.
  destruct (remove_undoes_add "id" (Sample.todo (JString "4") "d") (Some END) eq_refl)
    as (Hpage & _ & _).
  assert (Hrange : - exact_limit <= total (pagination Sample.threeTodos) < exact_limit)
    by (vm_compute; split; [discriminate | reflexivity]).
  destruct (Hpage Sample.threeTodos eq_refl Hrange) as (_ & _ & _ & _ & _ & Hwhole).
  apply Hwhole; [vm_compute; discriminate | reflexivity].
Defined.

Lemma filter_swap {A : Type} (p q : A -> bool) (l : list A) :
  List.filter p (List.filter q l) = List.filter q (List.filter p l).
Proof.
  induction l as [|x l IH]; simpl; [reflexivity|].
  destruct (q x) eqn:Hq, (p x) eqn:Hp; simpl; rewrite ?Hq, ?Hp, IH; reflexivity.
Qed.

(** X2.  Two removes commute in every shape: the same elements are left,
    and the paginated total has been decremented twice either way. *)
Theorem remove_commutes (idField : string) (id1 id2 : JsValue) :
  (forall S : PaginatedData,
     PaginatedStrategy.remove (PaginatedStrategy.remove S id1 idField) id2 idField
     = PaginatedStrategy.remove (PaginatedStrategy.remove S id2 idField) id1 idField) /\
  (forall S : SimpleListData,
     SimpleListStrategy.remove (SimpleListStrategy.remove S id1 idField) id2 idField
     = SimpleListStrategy.remove (SimpleListStrategy.remove S id2 idField) id1 idField) /\
  (forall a : list Entity,
     ArrayStrategy.remove (ArrayStrategy.remove a id1 idField) id2 idField
     = ArrayStrategy.remove (ArrayStrategy.remove a id2 idField) id1 idField).
Proof.
  split; [|split].
  - intros S. unfold PaginatedStrategy.remove, with_total, without_identity.
    cbn [data pagination total pagination_rest]. rewrite filter_swap. reflexivity.
  - intros S. unfold SimpleListStrategy.remove, with_data, without_identity.
    cbn [list_data list_rest]. rewrite filter_swap. reflexivity.
  - intros a. apply filter_swap.
Qed.

(** X3.  Removing the same identity a second time removes nothing more
    from [data] in any shape, but takes one more off the paginated total:
    after two removes from a total of at most 2^53 it is
    [max 0 (total - 2)]. *)
Theorem remove_twice (idField : string) (id : JsValue) :
  (forall S : PaginatedData,
     let once := PaginatedStrategy.remove S id idField in
     let twice := PaginatedStrategy.remove once id idField in
     data twice = data once /\
     (total (pagination S) <= exact_limit ->
        total (pagination twice) = Z.max 0 (total (pagination S) - 2) /\
        (1 <= total (pagination once) -> twice <> once))) /\
  (forall S : SimpleListData,
     SimpleListStrategy.remove (SimpleListStrategy.remove S id idField) id idField
     = SimpleListStrategy.remove S id idField) /\
  (forall a : list Entity,
     ArrayStrategy.remove (ArrayStrategy.remove a id idField) id idField
     = ArrayStrategy.remove a id idField).
Proof.
  split; [|split].
  - intros S. cbv zeta. unfold PaginatedStrategy.remove, with_total.
    cbn [data pagination total pagination_rest].
    split; [apply without_identity_absent, without_identity_clean|].
    intros Hhi. pose proof exact_limit_pos as Hlimit.
    rewrite (floored_number_sub_exact (total (pagination S))) by exact Hhi.
    rewrite floored_number_sub_exact by lia.
    split; [lia|].
    intros Hpos Heq. apply (f_equal (fun S => total (pagination S))) in Heq.
    cbn [data pagination total] in Heq. lia.
  - intros S. unfold SimpleListStrategy.remove, with_data. cbn [list_data list_rest].
    rewrite (without_identity_absent _ _ _ (without_identity_clean _ _ _)). reflexivity.
  - intros a. apply without_identity_absent, without_identity_clean.
Qed.

Lemma remove_twice_witness :
  PaginatedStrategy.remove (PaginatedStrategy.remove Sample.threeTodos (JString "2") "id")
    (JString "2") "id"
  <> PaginatedStrategy.remove Sample.threeTodos (JString "2") "id".
Proof.
  destruct (remove_twice "id" (JString "2")) as (Hpage & _ & _).
  destruct (Hpage Sample.threeTodos) as (_ & Hbounded).
  destruct Hbounded as (_ & Hdiffer); [vm_compute; discriminate|].
  apply Hdiffer. vm_compute. discriminate.
Defined.

(** ** update and upsert *)

(** X4.  [update] is idempotent in every shape and for every item. *)
Theorem update_idempotent (idField : string) (item : Entity) :
  (forall S : PaginatedData,
     PaginatedStrategy.update (PaginatedStrategy.update S item idField) item idField
     = PaginatedStrategy.update S item idField) /\
  (forall S : SimpleListData,
     SimpleListStrategy.update (SimpleListStrategy.update S item idField) item idField
     = SimpleListStrategy.update S item idField) /\
  (forall a : list Entity,
     ArrayStrategy.update (ArrayStrategy.update a item idField) item idField
     = ArrayStrategy.update a item idField).
Proof.
  split; [|split].
  - intros S. unfold PaginatedStrategy.update. cbn [data pagination].
    rewrite replace_matching_idem. reflexivity.
  - intros S. unfold SimpleListStrategy.update, with_data. cbn [list_data list_rest].
    rewrite replace_matching_idem. reflexivity.
  - intros a. apply replace_matching_idem.
Qed.

(** ** Distinct identities *)

Lemma occurs_without_identity idField id id' xs :
  occurs idField id xs = false ->
  occurs idField id (without_identity idField id' xs) = false.
Proof.
  rewrite !absent_spec. intros Habs e He.
  apply without_identity_elem in He as [He _]. apply Habs, He.
Qed.

Lemma without_identity_cons idField id e rest :
  without_identity idField id (e :: rest)
  = if other_identity idField id e then e :: without_identity idField id rest
    else without_identity idField id rest.
Proof. reflexivity. Qed.

Lemma distinct_without_identity idField id xs :
  distinct_identities idField xs = true ->
  distinct_identities idField (without_identity idField id xs) = true.
Proof.
  induction xs as [|e rest IH]; [reflexivity|].
  cbn [distinct_identities]. intros [Hhead Hrest]%andb_true_iff.
  apply negb_true_iff in Hhead. rewrite without_identity_cons.
  destruct (other_identity idField id e); [|apply IH, Hrest].
  cbn [distinct_identities].
  rewrite (occurs_without_identity _ _ id _ Hhead). simpl. apply IH, Hrest.
Qed.

Lemma occurs_replace_matching idField id item xs :
  occurs idField id xs = false ->
  strict_eq (get item idField) id = false ->
  occurs idField id (replace_matching idField item xs) = false.
Proof.
  intros Habs Hitem. unfold occurs, replace_matching in *.
  induction xs as [|e rest IH]; simpl in *; [reflexivity|].
  apply orb_false_iff in Habs as [He Hrest]. rewrite (IH Hrest).
  destruct (same_identity idField item e); [rewrite Hitem | rewrite He]; reflexivity.
Qed.

Lemma distinct_replace_matching idField item xs :
  distinct_identities idField xs = true ->
  distinct_identities idField (replace_matching idField item xs) = true.
Proof.
  induction xs as [|e rest IH]; [reflexivity|].
  cbn [distinct_identities]. intros [Hhead Hrest]%andb_true_iff.
  apply negb_true_iff in Hhead.
  change (replace_matching idField item (e :: rest))
    with ((if same_identity idField item e then item else e)
            :: replace_matching idField item rest).
  cbn [distinct_identities]. rewrite (IH Hrest), andb_true_r. apply negb_true_iff.
  destruct (same_identity idField item e) eqn:He; unfold same_identity in He.
  - assert (Hitem : occurs idField (get item idField) rest = false)
      by (rewrite <- (occurs_cong idField _ _ rest He); exact Hhead).
    rewrite replace_matching_absent by exact Hitem. exact Hitem.
  - apply occurs_replace_matching; [exact Hhead|].
    rewrite strict_eq_sym. exact He.
Qed.

Lemma occurs_cons idField id e xs :
  occurs idField id (e :: xs) = strict_eq (get e idField) id || occurs idField id xs.
Proof. reflexivity. Qed.

Lemma occurs_app idField id xs ys :
  occurs idField id (xs ++ ys) = occurs idField id xs || occurs idField id ys.
Proof. apply existsb_app. Qed.

Lemma distinct_app_singleton idField item xs :
  distinct_identities idField (xs ++ [item])
  = distinct_identities idField xs && negb (occurs idField (get item idField) xs).
Proof.
  induction xs as [|e rest IH]; [reflexivity|].
  change ((e :: rest) ++ [item]) with (e :: (rest ++ [item])).
  cbn [distinct_identities]. rewrite IH, occurs_app, !occurs_cons.
  rewrite (strict_eq_sym (get item idField)).
  change (occurs idField (get e idField) []) with false.
  destruct (occurs idField (get e idField) rest),
    (strict_eq (get e idField) (get item idField)),
    (distinct_identities idField rest), (occurs idField (get item idField) rest);
    reflexivity.
Qed.

Lemma distinct_insert_at idField item position xs :
  distinct_identities idField (insert_at position item xs)
  = distinct_identities idField xs && negb (occurs idField (get item idField) xs).
Proof.
  unfold insert_at. destruct (position_or_default position).
  - simpl. apply andb_comm.
  - apply distinct_app_singleton.
Qed.

(** X5.  In every shape [update], [upsert] and [remove] keep the
    identities of [data] pairwise distinct (under [===]) when they were;
    [add] keeps them distinct exactly when the identity of the new item was
    absent. *)
Theorem identities_stay_distinct (idField : string) :
  (forall S : PaginatedData,
     distinct_identities idField (data S) = true ->
     (forall item,
        distinct_identities idField (data (PaginatedStrategy.update S item idField)) = true /\
        distinct_identities idField (data (PaginatedStrategy.upsert S item idField)) = true) /\
     (forall id,
        distinct_identities idField (data (PaginatedStrategy.remove S id idField)) = true) /\
     (forall item position,
        distinct_identities idField (data (PaginatedStrategy.add S item position))
        = negb (occurs idField (get item idField) (data S)))) /\
  (forall S : SimpleListData,
     distinct_identities idField (list_data S) = true ->
     (forall item,
        distinct_identities idField
          (list_data (SimpleListStrategy.update S item idField)) = true /\
        distinct_identities idField
          (list_data (SimpleListStrategy.upsert S item idField)) = true) /\
     (forall id,
        distinct_identities idField
          (list_data (SimpleListStrategy.remove S id idField)) = true) /\
     (forall item position,
        distinct_identities idField (list_data (SimpleListStrategy.add S item position))
        = negb (occurs idField (get item idField) (list_data S)))) /\
  (forall a : list Entity,
     distinct_identities idField a = true ->
     (forall item,
        distinct_identities idField (ArrayStrategy.update a item idField) = true /\
        distinct_identities idField (ArrayStrategy.upsert a item idField) = true) /\
     (forall id, distinct_identities idField (ArrayStrategy.remove a id idField) = true) /\
     (forall item position,
        distinct_identities idField (ArrayStrategy.add a item position)
        = negb (occurs idField (get item idField) a))).
Proof.
  assert (Hlists : forall xs, distinct_identities idField xs = true ->
            (forall item,
               distinct_identities idField (replace_matching idField item xs) = true /\
               distinct_identities idField
                 (if occurs idField (get item idField) xs
                  then replace_matching idField item xs
                  else insert_at None item xs) = true) /\
            (forall id, distinct_identities idField (without_identity idField id xs) = true) /\
            (forall item position,
               distinct_identities idField (insert_at position item xs)
               = negb (occurs idField (get item idField) xs))).
  { intros xs Hxs. split; [|split].
    - intros item. split; [apply distinct_replace_matching, Hxs|].
      destruct (occurs idField (get item idField) xs) eqn:Hocc.
      + apply distinct_replace_matching, Hxs.
      + rewrite distinct_insert_at, Hxs, Hocc. reflexivity.
    - intros id. apply distinct_without_identity, Hxs.
    - intros item position. rewrite distinct_insert_at, Hxs. reflexivity. }
  split; [|split].
  - intros [xs p] Hxs. destruct (Hlists xs Hxs) as (Hup & Hrem & Hadd).
    split; [|split; [exact Hrem | exact Hadd]].
    intros item. destruct (Hup item) as [Hupdate Hupsert].
    split; [exact Hupdate|].
    rewrite paginated_upsert_cases. cbn [data] in *.
    destruct (occurs idField (get item idField) xs); exact Hupsert.
  - intros [xs rest] Hxs. destruct (Hlists xs Hxs) as (Hup & Hrem & Hadd).
    split; [|split; [exact Hrem | exact Hadd]].
    intros item. destruct (Hup item) as [Hupdate Hupsert].
    split; [exact Hupdate|].
    rewrite simple_list_upsert_cases. cbn [list_data] in *.
    destruct (occurs idField (get item idField) xs); exact Hupsert.
  - intros a Ha. destruct (Hlists a Ha) as (Hup & Hrem & Hadd).
    split; [|split; [exact Hrem | exact Hadd]].
    intros item. destruct (Hup item) as [Hupdate Hupsert].
    split; [exact Hupdate|].
    rewrite array_upsert_cases.
    destruct (occurs idField (get item idField) a); exact Hupsert.
Qed.

Lemma identities_stay_distinct_witness :
  distinct_identities "id"
    (data (PaginatedStrategy.upsert Sample.threeTodos (Sample.todo (JString "2") "z") "id"))
    = true /\
  distinct_identities "id"
    (data (PaginatedStrategy.add Sample.threeTodos (Sample.todo (JString "2") "z") None))
    = false.
Proof.
  destruct (identities_stay_distinct "id") as (Hpage & _ & _).
  destruct (Hpage Sample.threeTodos eq_refl) as (Hup & _ & Hadd).
  split; [apply Hup | rewrite Hadd; reflexivity].
Defined.

(** ** Dispatch on well-shaped data *)

(** X6.  A strategy applied to data of its own shape never throws and
    answers in the same shape; of the pagination object only [total] can
    change ([page], [limit], [totalPages] are never recomputed), the extra
    fields of a simple list are kept, and a later [replace] gives the same
    value as a [replace] of the data before. *)
Theorem strategies_keep_other_fields `{JsRuntime} (call : StrategyCall) :
  (forall p : PaginatedData, exists p' : PaginatedData,
     CacheStrategy.run paginatedStrategy call (Paginated p) = Ok (Paginated p') /\
     pagination_rest (pagination p') = pagination_rest (pagination p) /\
     forall items, PaginatedStrategy.replace p' items = PaginatedStrategy.replace p items) /\
  (forall s : SimpleListData, exists s' : SimpleListData,
     CacheStrategy.run simpleListStrategy call (SimpleList s) = Ok (SimpleList s') /\
     list_rest s' = list_rest s /\
     forall items, SimpleListStrategy.replace s' items = SimpleListStrategy.replace s items) /\
  (forall a : list Entity, exists a' : list Entity,
     CacheStrategy.run arrayStrategy call (RawArray a) = Ok (RawArray a')).
Proof.
  split; [|split].
  - intros p. destruct call; eexists; (split; [reflexivity|]);
      rewrite ?paginated_upsert_cases;
      try match goal with |- context [if ?b then _ else _] => destruct b end;
      split; reflexivity.
  - intros s. destruct call; eexists; (split; [reflexivity|]);
      rewrite ?simple_list_upsert_cases;
      try match goal with |- context [if ?b then _ else _] => destruct b end;
      split; reflexivity.
  - intros a. destruct call; eexists; reflexivity.
Qed.

(** * Further properties of the cache managers *)

Section MoreManagerProperties.
Context {Cache : Type} `{ApolloCache Cache} `{JsRuntime}.

(** ** The registry *)

Lemma entity_manager_eq (this that : EntityCacheManager.t) :
  EntityCacheManager.entities this = EntityCacheManager.entities that ->
  EntityCacheManager.strategies this = EntityCacheManager.strategies that ->
  this = that.
Proof. destruct this, that. simpl. intros -> ->. reflexivity. Qed.

(** X7.  [registerEntity] with a supported shape returns normally, binds
    the configuration and the strategy of its shape to the key and leaves
    every other key alone; registering the same configuration again
    changes nothing, and a registration overwrites whatever an earlier
    registration of the key (failed or not) had put there. *)
Theorem registerEntity_supported this entityKey config strategy :
  select_strategy (CacheConfig.dataStructure config) = Some strategy ->
  let this' := snd (EntityCacheManager.registerEntity this entityKey config) in
  fst (EntityCacheManager.registerEntity this entityKey config) = Ok tt /\
  EntityCacheManager.entities this' !! entityKey = Some config /\
  EntityCacheManager.strategies this' !! entityKey = Some strategy /\
  (forall other, other <> entityKey ->
     EntityCacheManager.entities this' !! other
       = EntityCacheManager.entities this !! other /\
     EntityCacheManager.strategies this' !! other
       = EntityCacheManager.strategies this !! other) /\
  EntityCacheManager.registerEntity this' entityKey config = (Ok tt, this') /\
  (forall earlier,
     snd (EntityCacheManager.registerEntity
            (snd (EntityCacheManager.registerEntity this entityKey earlier))
            entityKey config) = this').
Proof.
  intros Hsel. unfold EntityCacheManager.registerEntity. rewrite Hsel.
  cbn [fst snd EntityCacheManager.entities EntityCacheManager.strategies].
  split; [reflexivity|]. split; [apply lookup_insert_eq|].
  split; [apply lookup_insert_eq|]. split; [|split].
  - intros other Hother. split; apply lookup_insert_ne; congruence.
  - f_equal. apply entity_manager_eq; simpl; apply insert_insert_eq.
  - intros earlier.
    destruct (select_strategy (CacheConfig.dataStructure earlier));
      apply entity_manager_eq; simpl; rewrite ?insert_insert_eq; reflexivity.
Qed.

(** X8.  Operations on a key depend on the registration of that key only:
    registering another key, with a supported shape or not, changes neither
    [executeOperation] nor [getCachedData] for it.  After [destroy] every
    key is unregistered: [executeOperation] returns [false] and
    [getCachedData] returns [null], the store untouched. *)
Theorem registrations_are_independent this entityKey config :
  let this' := snd (EntityCacheManager.registerEntity this entityKey config) in
  (forall operation (c : Cache),
     EntityOperation.entityKey operation <> entityKey ->
     EntityCacheManager.executeOperation this' operation c
     = EntityCacheManager.executeOperation this operation c) /\
  (forall other (c : Cache),
     other <> entityKey ->
     EntityCacheManager.getCachedData this' other c
     = EntityCacheManager.getCachedData this other c) /\
  (forall operation (c : Cache),
     EntityCacheManager.executeOperation (EntityCacheManager.destroy this') operation c
     = (Ok false, c)) /\
  (forall other (c : Cache),
     EntityCacheManager.getCachedData (EntityCacheManager.destroy this') other c
     = (Ok None, c)).
Proof.
  cbv zeta. split; [|split; [|split]].
  - intros operation c Hother.
    unfold EntityCacheManager.executeOperation, EntityCacheManager.registerEntity.
    destruct (select_strategy (CacheConfig.dataStructure config));
      cbn [snd EntityCacheManager.entities EntityCacheManager.strategies];
      rewrite ?lookup_insert_ne by congruence; reflexivity.
  - intros other c Hother.
    unfold EntityCacheManager.getCachedData, EntityCacheManager.registerEntity.
    destruct (select_strategy (CacheConfig.dataStructure config));
      cbn [snd EntityCacheManager.entities EntityCacheManager.strategies];
      rewrite ?lookup_insert_ne by congruence; reflexivity.
  - intros operation c. apply entity_execute_unregistered. apply lookup_empty.
  - intros other c. apply getCachedData_unregistered. apply lookup_empty.
Qed.

(** ** Missing payloads *)

(** X9.  [EntityCacheManager.executeOperation] returns [false] and leaves
    the store as it was when the operation lacks the field its kind needs
    ([data] for add, update and upsert, [id] for remove, [items] for
    replace), whatever is registered and whatever is cached. *)
Theorem entity_execute_missing_payload this operation (c : Cache) :
  toCacheOperation operation = None ->
  EntityCacheManager.executeOperation this operation c = (Ok false, c).
Proof.
  intros Hmiss. unfold EntityCacheManager.executeOperation.
  destruct (EntityCacheManager.entities this !! _) as [config|]; [|reflexivity].
  destruct (EntityCacheManager.strategies this !! _) as [strategy|]; [|reflexivity].
  unfold try_catch, mbind, Run_bind, run_bind.
  destruct (readCacheData_returns config c) as [[d|] ->]; [|reflexivity].
  assert (Hnone : EntityCacheManager.applyOperation strategy d
                    (default "id" (CacheConfig.idField config)) operation = None).
  { unfold toCacheOperation in Hmiss. unfold EntityCacheManager.applyOperation.
    destruct (EntityOperation.type operation);
      try (destruct (EntityOperation.data operation); [discriminate | reflexivity]).
    - destruct (strict_eq (EntityOperation.id operation) JUndefined);
        [reflexivity | discriminate].
    - destruct (EntityOperation.items operation); [discriminate | reflexivity]. }
  rewrite Hnone. reflexivity.
Qed.


(** ** What a successful operation has done *)

(** X10.  [OptimisticCacheManager.executeOperation] of an operation other
    than a remove returns [true] exactly when the read found data, the
    strategy returned and the write went through; the store is then the
    store that write left, nothing else having been touched. *)
Theorem optimistic_execute_true_iff this operation (c c' : Cache) :
  is_remove operation = false ->
  OptimisticCacheManager.executeOperation this operation c = (Ok true, c') <->
  exists existingData updatedData,
    readCacheData (OptimisticCacheManager.config this) c = (Ok (Some existingData), c) /\
    OptimisticCacheManager.applyOperation this existingData operation = Ok updatedData /\
    writeCacheData (OptimisticCacheManager.config this) updatedData c = (Ok tt, c').
Proof.
  intros Hkind.
  assert (Hevict : forall c1, OptimisticCacheManager.evictRemoved this operation c1
                              = (Ok tt, c1)).
  { intros c1. unfold OptimisticCacheManager.evictRemoved.
    destruct operation; try discriminate; reflexivity. }
  unfold OptimisticCacheManager.executeOperation.
  unfold try_catch, mbind, Run_bind, run_bind, complete.
  destruct (readCacheData_returns (OptimisticCacheManager.config this) c) as [[d|] ->].
  - destruct (OptimisticCacheManager.applyOperation this d operation) as [u|e] eqn:Happly.
    + destruct (writeCacheData (OptimisticCacheManager.config this) u c)
        as [[[]|e] c1] eqn:Hwrite.
      * rewrite Hevict. unfold mret, Run_ret, run_ret. split.
        -- intros [= <-]. exists d, u. auto.
        -- intros (d' & u' & Hd & Hu & Hw). injection Hd as <-.
           rewrite Happly in Hu. injection Hu as <-. congruence.
      * split; [discriminate|].
        intros (d' & u' & Hd & Hu & Hw). injection Hd as <-.
        rewrite Happly in Hu. injection Hu as <-. congruence.
    + split; [discriminate|].
      intros (d' & u' & Hd & Hu & _). injection Hd as <-. congruence.
  - split; [discriminate|]. intros (d' & u' & Hd & _). discriminate.
Qed.

(** X11.  Read your writes: on a store that reads back what is written, a
    registered entity with a result key, and an operation other than a
    remove, an [executeOperation] that returns [true] found some cached
    data, and [getCachedData] afterwards returns what the bound strategy
    made of it. *)
Theorem entity_read_your_writes this operation config strategy key (c c' : Cache) :
  read_after_write c ->
  EntityCacheManager.entities this !! EntityOperation.entityKey operation = Some config ->
  EntityCacheManager.strategies this !! EntityOperation.entityKey operation
    = Some strategy ->
  non_empty (CacheConfig.queryResultKey config) = Some key ->
  EntityOperation.type operation <> REMOVE ->
  EntityCacheManager.executeOperation this operation c = (Ok true, c') ->
  exists existingData updatedData,
    EntityCacheManager.getCachedData this (EntityOperation.entityKey operation) c
      = (Ok (Some existingData), c) /\
    EntityCacheManager.applyOperation strategy existingData
      (default "id" (CacheConfig.idField config)) operation = Some (Ok updatedData) /\
    EntityCacheManager.getCachedData this (EntityOperation.entityKey operation) c'
      = (Ok (Some updatedData), c').
Proof.
  intros Hlaw Hconfig Hstrategy Hkey Hkind Hexec.
  rewrite !(getCachedData_registered _ _ _ _ Hconfig).
  unfold EntityCacheManager.executeOperation in Hexec.
  rewrite Hconfig, Hstrategy in Hexec.
  unfold try_catch, mbind, Run_bind, run_bind in Hexec.
  destruct (readCacheData_returns config c) as [[d|] Hread];
    rewrite Hread in Hexec; [|discriminate].
  destruct (EntityCacheManager.applyOperation strategy d _ operation) as [[u|e]|] eqn:Happly;
    try discriminate.
  exists d, u. split; [exact Hread|]. split; [exact Happly|].
  unfold complete, writeCacheData, perform in Hexec. rewrite Hkey in Hexec.
  destruct (writeQuery c _ _ _) as [c1|e] eqn:Hw; [|discriminate].
  assert (Hevict : EntityCacheManager.evictRemoved config
                     (default "id" (CacheConfig.idField config)) operation c1
                   = (Ok tt, c1)).
  { unfold EntityCacheManager.evictRemoved.
    destruct (EntityOperation.type operation); try reflexivity. congruence. }
  rewrite Hevict in Hexec. unfold mret, Run_ret, run_ret in Hexec.
  injection Hexec as <-.
  rewrite (readCacheData_keyed config c1 _ key (Hlaw _ _ _ _ Hw) Hkey).
  rewrite lookup_singleton_eq. reflexivity.
Qed.

(** ** The two managers side by side *)

Lemma execute_agree this operation cacheOperation config manager (c : Cache) :
  OptimisticCacheManager.new config = Ok manager ->
  toCacheOperation operation = Some cacheOperation ->
  (is_remove cacheOperation = true ->
     truthy (EntityOperation.id operation) = true /\
     forall (c1 : Cache) typename idField,
       identify c1 typename idField (EntityOperation.id operation) <> Ok (Some "")) ->
  EntityCacheManager.executeOperation
    (snd (EntityCacheManager.registerEntity this (EntityOperation.entityKey operation) config))
    operation c
  = OptimisticCacheManager.executeOperation manager cacheOperation c.
Proof.
  intros Hnew Hop Hremove.
  unfold OptimisticCacheManager.new in Hnew.
  unfold EntityCacheManager.registerEntity, EntityCacheManager.executeOperation.
  destruct (select_strategy (CacheConfig.dataStructure config)) as [strategy|];
    [|discriminate].
  injection Hnew as <-.
  cbn [snd EntityCacheManager.entities EntityCacheManager.strategies].
  rewrite !lookup_insert_eq.
  unfold OptimisticCacheManager.executeOperation.
  cbn [OptimisticCacheManager.config].
  unfold try_catch, mbind, Run_bind, run_bind, complete.
  destruct (readCacheData_returns config c) as [[d|] ->]; [|reflexivity].
  unfold toCacheOperation in Hop.
  unfold EntityCacheManager.applyOperation, OptimisticCacheManager.applyOperation,
    EntityCacheManager.evictRemoved, OptimisticCacheManager.evictRemoved.
  cbn [OptimisticCacheManager.config OptimisticCacheManager.strategy
       OptimisticCacheManager.idField].
  destruct (EntityOperation.type operation).
  - destruct (EntityOperation.data operation) as [item|]; [|discriminate].
    injection Hop as <-. reflexivity.
  - destruct (EntityOperation.data operation) as [item|]; [|discriminate].
    injection Hop as <-. reflexivity.
  - destruct (strict_eq (EntityOperation.id operation) JUndefined); [discriminate|].
    injection Hop as <-. destruct (Hremove eq_refl) as [Htruthy Hident].
    rewrite Htruthy.
    destruct (CacheStrategy.remove strategy d _ _) as [u|e]; [|reflexivity].
    destruct (writeCacheData config u c) as [[[]|e] c1]; [|reflexivity].
    destruct (non_empty (CacheConfig.entityName config)) as [name|]; [|reflexivity].
    unfold_run.
    destruct (identify c1 name (default "id" (CacheConfig.idField config))
                (EntityOperation.id operation)) as [[cacheId|]|e] eqn:Hid;
      try reflexivity.
    simpl. destruct (String.eqb_spec cacheId "") as [->|Hne]; [|reflexivity].
    exfalso. exact (Hident _ _ _ Hid).
  - destruct (EntityOperation.items operation) as [items|]; [|discriminate].
    injection Hop as <-. reflexivity.
  - destruct (EntityOperation.data operation) as [item|]; [|discriminate].
    injection Hop as <-. reflexivity.
Qed.

(** X12.  An [EntityCacheManager] with a configuration registered under a
    key and an [OptimisticCacheManager] constructed from the same
    configuration do the same to the store and return the same: for every
    add, update, replace and upsert, and for a remove whose id is truthy
    when [identify] never answers the empty string. *)
Theorem managers_agree this operation cacheOperation config manager (c : Cache) :
  OptimisticCacheManager.new config = Ok manager ->
  toCacheOperation operation = Some cacheOperation ->
  (is_remove cacheOperation = true ->
     truthy (EntityOperation.id operation) = true /\
     forall (c1 : Cache) typename idField,
       identify c1 typename idField (EntityOperation.id operation) <> Ok (Some "")) ->
  EntityCacheManager.executeOperation
    (snd (EntityCacheManager.registerEntity this (EntityOperation.entityKey operation) config))
    operation c
  = OptimisticCacheManager.executeOperation manager cacheOperation c.
Proof. apply execute_agree. Qed.

(** X20.  The mutations of [useContextEntityMutations] on a registered key
    and the item methods of an [OptimisticCacheManager] constructed from
    the same configuration coincide: [addEntity] with [addItem],
    [updateEntity] with [updateItem], [upsertEntity] with [upsertItem],
    [replaceEntities] with [replaceItems], and [removeEntity] with
    [removeItem] for a truthy id when [identify] never answers the empty
    string. *)
Theorem hooks_agree_with_item_methods this entityKey config manager (c : Cache) :
  OptimisticCacheManager.new config = Ok manager ->
  let registered := snd (EntityCacheManager.registerEntity this entityKey config) in
  (forall entity position,
     ContextEntityMutations.addEntity registered entityKey entity position c
     = OptimisticCacheManager.addItem manager entity position c) /\
  (forall entity,
     ContextEntityMutations.updateEntity registered entityKey entity c
     = OptimisticCacheManager.updateItem manager entity c) /\
  (forall entity,
     ContextEntityMutations.upsertEntity registered entityKey entity c
     = OptimisticCacheManager.upsertItem manager entity c) /\
  (forall entities,
     ContextEntityMutations.replaceEntities registered entityKey entities c
     = OptimisticCacheManager.replaceItems manager entities c) /\
  (forall id,
     truthy id = true ->
     (forall (c1 : Cache) typename idField,
        identify c1 typename idField id <> Ok (Some "")) ->
     ContextEntityMutations.removeEntity registered entityKey id c
     = OptimisticCacheManager.removeItem manager id c).
Proof.
  intros Hnew. cbv zeta. split; [|split; [|split; [|split]]].
  - intros entity position.
    exact (execute_agree this
             {| EntityOperation.type := ADD; EntityOperation.entityKey := entityKey;
                EntityOperation.data := Some entity; EntityOperation.id := JUndefined;
                EntityOperation.items := None;
                EntityOperation.position := Some (position_or_default position) |}
             _ config manager c Hnew eq_refl (fun Hr => False_ind _ (Bool.diff_false_true Hr))).
  - intros entity.
    exact (execute_agree this
             {| EntityOperation.type := UPDATE; EntityOperation.entityKey := entityKey;
                EntityOperation.data := Some entity; EntityOperation.id := JUndefined;
                EntityOperation.items := None; EntityOperation.position := None |}
             _ config manager c Hnew eq_refl (fun Hr => False_ind _ (Bool.diff_false_true Hr))).
  - intros entity.
    exact (execute_agree this
             {| EntityOperation.type := UPSERT; EntityOperation.entityKey := entityKey;
                EntityOperation.data := Some entity; EntityOperation.id := JUndefined;
                EntityOperation.items := None; EntityOperation.position := None |}
             _ config manager c Hnew eq_refl (fun Hr => False_ind _ (Bool.diff_false_true Hr))).
  - intros entities.
    exact (execute_agree this
             {| EntityOperation.type := REPLACE; EntityOperation.entityKey := entityKey;
                EntityOperation.data := None; EntityOperation.id := JUndefined;
                EntityOperation.items := Some entities; EntityOperation.position := None |}
             _ config manager c Hnew eq_refl (fun Hr => False_ind _ (Bool.diff_false_true Hr))).
  - intros id Htruthy Hident.
    apply (execute_agree this
             {| EntityOperation.type := REMOVE; EntityOperation.entityKey := entityKey;
                EntityOperation.data := None; EntityOperation.id := id;
                EntityOperation.items := None; EntityOperation.position := None |}
             (CacheOperation.REMOVE id) config manager c Hnew).
    + unfold toCacheOperation. simpl. destruct id; try discriminate; reflexivity.
    + intros _. split; [exact Htruthy | exact Hident].
Qed.


(** X13.  [updateItemField] returns [true] exactly when an entity name is
    configured, [identify] names a record and [modify] goes through; the
    store is then the store [modify] left, the cached query result being
    neither read nor written. *)
Theorem updateItemField_true_iff this id fieldUpdates (c c' : Cache) :
  OptimisticCacheManager.updateItemField this id fieldUpdates c = (Ok true, c') <->
  exists entityName cacheId,
    non_empty (CacheConfig.entityName (OptimisticCacheManager.config this))
      = Some entityName /\
    identify c entityName (OptimisticCacheManager.idField this) id = Ok (Some cacheId) /\
    modify c cacheId fieldUpdates = Ok c'.
Proof.
  unfold OptimisticCacheManager.updateItemField. unfold_run.
  destruct (non_empty _) as [name|] eqn:Hname.
  - destruct (identify c name _ id) as [[cacheId|]|e] eqn:Hid.
    + destruct (modify c cacheId fieldUpdates) as [c1|e] eqn:Hmod.
      * split.
        -- intros [= <-]. exists name, cacheId. auto.
        -- intros (name' & cacheId' & Hn & Hi & Hm). injection Hn as <-.
           rewrite Hid in Hi. injection Hi as <-. congruence.
      * split; [discriminate|].
        intros (name' & cacheId' & Hn & Hi & Hm). injection Hn as <-.
        rewrite Hid in Hi. injection Hi as <-. congruence.
    + split; [discriminate|].
      intros (name' & cacheId' & Hn & Hi & _). injection Hn as <-. congruence.
    + split; [discriminate|].
      intros (name' & cacheId' & Hn & Hi & _). injection Hn as <-. congruence.
  - split; [discriminate|]. intros (name' & cacheId' & Hn & _). discriminate.
Qed.

End MoreManagerProperties.

(** * The hooks, the cross-tab handshake and the legacy utilities *)

Section HookProperties.
Context {Cache : Type} `{ApolloCache Cache} `{JsRuntime} `{ApolloCacheLoose Cache}
  `{ApolloClientNetwork Cache}.

Lemma updateEntityFields_unfold this entityKey id fieldUpdates (c : Cache) :
  ContextEntityMutations.updateEntityFields this entityKey id fieldUpdates c
  = match EntityCacheManager.getCachedData this entityKey c with
    | (Ok (Some _), c1) =>
        try_catch (ContextEntityMutations.modifyTodo id fieldUpdates)
          (fun _ => mret false) c1
    | (Ok None, c1) => (Ok false, c1)
    | (Throw e, c1) => (Throw e, c1)
    end.
Proof.
  unfold ContextEntityMutations.updateEntityFields, mbind, Run_bind, run_bind.
  destruct (EntityCacheManager.getCachedData this entityKey c) as [[[d|]|e] c1];
    reflexivity.
Qed.

(** X14.  [updateEntityFields] never throws; it returns [false] without
    touching the store when the key is unregistered or its cache entry is
    missing.  When there is cached data it returns the boolean of
    [cache.modify] on the record [identify] names for the type [Todo] and
    the field [id]: the entity name and identity field of the registered
    configuration play no part. *)
Theorem updateEntityFields_addresses_todo this entityKey id fieldUpdates (c : Cache) :
  (exists b c',
     ContextEntityMutations.updateEntityFields this entityKey id fieldUpdates c
     = (Ok b, c')) /\
  (EntityCacheManager.entities this !! entityKey = None ->
     ContextEntityMutations.updateEntityFields this entityKey id fieldUpdates c
     = (Ok false, c)) /\
  (forall config,
     EntityCacheManager.entities this !! entityKey = Some config ->
     (read_fails c config ->
        ContextEntityMutations.updateEntityFields this entityKey id fieldUpdates c
        = (Ok false, c)) /\
     (forall existingData cacheId result c',
        readCacheData config c = (Ok (Some existingData), c) ->
        identify c "Todo" "id" id = Ok cacheId ->
        modifyResult c cacheId fieldUpdates = Ok (result, c') ->
        ContextEntityMutations.updateEntityFields this entityKey id fieldUpdates c
        = (Ok result, c')) /\
     (forall entityName idField,
        ContextEntityMutations.updateEntityFields
          {| EntityCacheManager.entities :=
               <[entityKey := retarget config entityName idField]>
                 (EntityCacheManager.entities this);
             EntityCacheManager.strategies := EntityCacheManager.strategies this |}
          entityKey id fieldUpdates c
        = ContextEntityMutations.updateEntityFields this entityKey id fieldUpdates c)).
Proof.
  rewrite !updateEntityFields_unfold.
  split; [|split].
  - destruct (getCachedData_returns this entityKey c) as [[d|] ->].
    + apply try_catch_false_returns.
    + eexists _, _. reflexivity.
  - intros Hnone. rewrite (getCachedData_unregistered _ _ _ Hnone). reflexivity.
  - intros config Hconfig. split; [|split].
    + intros Hfail. rewrite (getCachedData_registered _ _ _ _ Hconfig).
      rewrite (readCacheData_missing _ _ Hfail). reflexivity.
    + intros d cacheId result c' Hread Hid Hmod.
      rewrite (getCachedData_registered _ _ _ _ Hconfig), Hread.
      unfold ContextEntityMutations.modifyTodo, ContextEntityMutations.modifyReturning.
      unfold_run. rewrite Hid, Hmod. reflexivity.
    + intros entityName idField. rewrite updateEntityFields_unfold.
      rewrite (getCachedData_registered _ _ _ _ Hconfig).
      rewrite (getCachedData_registered _ _ _ (retarget config entityName idField));
        [reflexivity|].
      apply lookup_insert_eq.
Qed.

(** ** [refresh] *)

(** X15.  [refresh] never throws.  Without the network it writes at most
    once, and only the value it has just read under the same query and
    variables: the store is untouched when the entry is missing, when the
    read throws or when the write is rejected, and on a store that reads
    back what is written the query reads the same before and after. *)
Theorem refresh_rewrites_what_it_read query variables (c : Cache) :
  (forall networkOnly, exists c',
     ContextEntityData.refresh query variables networkOnly c = (Ok tt, c')) /\
  (readQuery c query variables = Ok None \/
   (exists e, readQuery c query variables = Throw e) ->
     ContextEntityData.refresh query variables false c = (Ok tt, c)) /\
  (forall cacheData,
     readQuery c query variables = Ok (Some cacheData) ->
     ContextEntityData.refresh query variables false c
     = (Ok tt, match writeQuery c query variables cacheData with
               | Ok c' => c'
               | Throw _ => c
               end)) /\
  (read_after_write c ->
     readQuery (snd (ContextEntityData.refresh query variables false c)) query variables
     = readQuery c query variables).
Proof.
  split; [|split; [|split]].
  - intros networkOnly. unfold ContextEntityData.refresh. unfold_run.
    match goal with |- context [let (_, _) := ?m c in _] =>
      destruct (m c) as [[[d|]|e] c1] end;
      try (eexists; reflexivity).
    destruct (writeQuery c1 query variables d); eexists; reflexivity.
  - unfold ContextEntityData.refresh. unfold_run.
    intros [-> | [e ->]]; reflexivity.
  - intros cacheData Hread. unfold ContextEntityData.refresh. unfold_run.
    rewrite Hread. destruct (writeQuery c query variables cacheData); reflexivity.
  - intros Hlaw. unfold ContextEntityData.refresh. unfold_run.
    destruct (readQuery c query variables) as [[d|]|e] eqn:Hread; try (simpl; exact Hread).
    destruct (writeQuery c query variables d) as [c1|e] eqn:Hw; simpl.
    + apply (Hlaw _ _ _ _ Hw).
    + exact Hread.
Qed.

End HookProperties.

(** ** The broadcast-then-storage handshake *)

Section Handshake.
Variable APOLLO_CACHE_KEY : string.
Variable entityKey : string.

Lemma handshake_step_bound hasBroadcastChannel waiting event :
  let '(waiting', refreshed) :=
    ContextEntityData.step APOLLO_CACHE_KEY hasBroadcastChannel entityKey waiting event in
  ((if refreshed then 1 else 0) + (if waiting' then 1 else 0)
   <= (if waiting then 1 else 0)
      + (if hasBroadcastChannel && ContextEntityData.is_update entityKey event
         then 1 else 0))%nat.
Proof.
  destruct event as [eventData|key|]; simpl.
  - unfold ContextEntityData.handleBroadcastMessage.
    destruct hasBroadcastChannel, waiting,
      (bool_decide (MessageData.type eventData = Some "cache-update") &&
       bool_decide (MessageData.entityKey eventData = Some entityKey)); simpl; lia.
  - unfold ContextEntityData.handleStorageChange.
    destruct waiting, (bool_decide (key = Some APOLLO_CACHE_KEY)); simpl; lia.
  - destruct waiting; simpl; lia.
Qed.

Lemma handshake_run_bound hasBroadcastChannel events : forall waiting,
  (snd (ContextEntityData.run APOLLO_CACHE_KEY hasBroadcastChannel entityKey waiting events)
   + (if fst (ContextEntityData.run APOLLO_CACHE_KEY hasBroadcastChannel entityKey
                waiting events) then 1 else 0)
   <= (if waiting then 1 else 0)
      + (if hasBroadcastChannel
         then length (List.filter (ContextEntityData.is_update entityKey) events)
         else 0))%nat.
Proof.
  induction events as [|event rest IH]; intros waiting.
  - simpl. destruct hasBroadcastChannel; lia.
  - cbn [ContextEntityData.run].
    pose proof (handshake_step_bound hasBroadcastChannel waiting event) as Hstep.
    destruct (ContextEntityData.step _ _ _ waiting event) as [waiting' refreshed].
    specialize (IH waiting').
    destruct (ContextEntityData.run _ _ _ waiting' rest) as [final count].
    cbn [fst snd List.filter] in *.
    destruct hasBroadcastChannel, (ContextEntityData.is_update entityKey event),
      refreshed, waiting', waiting, final; simpl in *; lia.
Qed.

(** X16.  A consumer calls [refresh] at most once per [cache-update]
    message addressed to its entity key: from the idle state the number of
    refreshes never exceeds the number of such messages, whatever storage
    events, other messages and cleanups arrive, and it is zero when the
    platform has no [BroadcastChannel]. *)
Theorem refreshes_need_update_messages hasBroadcastChannel
    (events : list ContextEntityData.Event) :
  (snd (ContextEntityData.run APOLLO_CACHE_KEY hasBroadcastChannel entityKey false events)
   <= length (List.filter (ContextEntityData.is_update entityKey) events))%nat /\
  snd (ContextEntityData.run APOLLO_CACHE_KEY false entityKey false events) = 0%nat.
Proof.
  split.
  - pose proof (handshake_run_bound hasBroadcastChannel events false) as Hb.
    destruct hasBroadcastChannel; simpl in Hb; lia.
  - pose proof (handshake_run_bound false events false) as Hb. simpl in Hb. lia.
Qed.

Lemma run_while_waiting between : forall rest,
  forallb (keeps_waiting APOLLO_CACHE_KEY) between = true ->
  ContextEntityData.run APOLLO_CACHE_KEY true entityKey true (between ++ rest)
  = ContextEntityData.run APOLLO_CACHE_KEY true entityKey true rest.
Proof.
  induction between as [|event between IH]; intros rest Hkeep; [reflexivity|].
  simpl in Hkeep. apply andb_true_iff in Hkeep as [Hevent Hbetween].
  change ((event :: between) ++ rest) with (event :: (between ++ rest)).
  cbn [ContextEntityData.run].
  assert (Hstep : ContextEntityData.step APOLLO_CACHE_KEY true entityKey true event
                  = (true, false)).
  { destruct event as [eventData|key|]; simpl in *.
    - unfold ContextEntityData.handleBroadcastMessage.
      destruct (_ && _); reflexivity.
    - unfold ContextEntityData.handleStorageChange. simpl.
      apply negb_true_iff in Hevent. rewrite Hevent. reflexivity.
    - discriminate. }
  rewrite Hstep, (IH rest Hbetween).
  destruct (ContextEntityData.run _ _ _ true rest). reflexivity.
Qed.

(** X17.  The handshake: after a [cache-update] message for the entity
    key, the next storage event for the persisted cache key calls
    [refresh] exactly once and returns the consumer to idle, however many
    further messages and storage events of other keys come in between;
    several messages before the storage event are answered by one refresh. *)
Theorem handshake_refreshes_once waiting update between rest :
  ContextEntityData.is_update entityKey update = true ->
  forallb (keeps_waiting APOLLO_CACHE_KEY) between = true ->
  ContextEntityData.run APOLLO_CACHE_KEY true entityKey waiting
    (update :: between ++ ContextEntityData.StorageEvent (Some APOLLO_CACHE_KEY) :: rest)
  = (fst (ContextEntityData.run APOLLO_CACHE_KEY true entityKey false rest),
     S (snd (ContextEntityData.run APOLLO_CACHE_KEY true entityKey false rest))).
Proof.
  intros Hupdate Hbetween. cbn [ContextEntityData.run].
  assert (Hstep : ContextEntityData.step APOLLO_CACHE_KEY true entityKey waiting update
                  = (true, false)).
  { destruct update as [eventData|key|]; try discriminate. simpl in *.
    unfold ContextEntityData.handleBroadcastMessage. rewrite Hupdate. reflexivity. }
  rewrite Hstep, (run_while_waiting between _ Hbetween).
  cbn [ContextEntityData.run ContextEntityData.step].
  unfold ContextEntityData.handleStorageChange.
  rewrite bool_decide_eq_true_2 by reflexivity. simpl.
  destruct (ContextEntityData.run _ _ _ false rest). reflexivity.
Qed.

End Handshake.

(** ** The legacy utilities against the manager *)

Section LegacyProperties.
Context {Cache : Type} `{ApolloCache Cache} `{JsRuntime} `{ApolloCacheLoose Cache}
  `{TodosRuntime}.
Variable GET_TODOS : DocumentNode.
Variable DEFAULT_TODOS_QUERY_VARIABLES : gmap string JsValue.

Lemma createTodosCacheManager_returns query variables :
  TodoCacheUtils.createTodosCacheManager query variables
  = Ok {| OptimisticCacheManager.config :=
            {| CacheConfig.query := query;
               CacheConfig.variables := variables;
               CacheConfig.queryResultKey := Some "todos";
               CacheConfig.dataStructure := DataStructure.PAGINATED;
               CacheConfig.entityName := Some "Todo";
               CacheConfig.idField := Some "id" |};
          OptimisticCacheManager.strategy := paginatedStrategy;
          OptimisticCacheManager.idField := "id" |}.
Proof. reflexivity. Qed.

(** X18.  On every store whose [todos] entry is missing or is a page that
    owns [data] and [pagination] only, [addTodoToCache] does what [addItem]
    of the manager that [createTodosCacheManager] builds for the same query
    and variables does, with the same result.  (On a page that owns more,
    the utility keeps the other fields and the manager drops them.) *)
Theorem addTodoToCache_agrees newTodo queryVariables manager (c : Cache) :
  TodoCacheUtils.createTodosCacheManager GET_TODOS
    (Some (default DEFAULT_TODOS_QUERY_VARIABLES queryVariables)) = Ok manager ->
  todos_plain_page c GET_TODOS
    (Some (default DEFAULT_TODOS_QUERY_VARIABLES queryVariables)) ->
  TodoCacheUtils.addTodoToCache GET_TODOS DEFAULT_TODOS_QUERY_VARIABLES newTodo
    queryVariables c
  = OptimisticCacheManager.addItem manager newTodo None c.
Proof.
  rewrite createTodosCacheManager_returns. intros [= <-] Hshape.
  unfold TodoCacheUtils.addTodoToCache, OptimisticCacheManager.addItem,
    OptimisticCacheManager.executeOperation, readCacheData, writeCacheData,
    OptimisticCacheManager.evictRemoved, OptimisticCacheManager.applyOperation.
  cbn [OptimisticCacheManager.config OptimisticCacheManager.strategy
       OptimisticCacheManager.idField CacheConfig.query CacheConfig.variables
       CacheConfig.queryResultKey CacheConfig.entityName].
  unfold_run. unfold todos_plain_page in Hshape.
  destruct (readQuery c GET_TODOS _) as [[cacheData|]|e]; try reflexivity.
  specialize (Hshape cacheData eq_refl). simpl.
  destruct (cacheData !! "todos") as [[p|s|a]|]; try contradiction; try reflexivity.
  simpl. unfold PaginatedStrategy.add, with_total, insert_at. simpl.
  rewrite Hshape. reflexivity.
Qed.

(** X19.  [removeTodoFromCache] does what [removeItem] of that manager
    does, with the same result, on every store whose [todos] entry is
    missing or is a page that owns [data] and [pagination] only, as long as
    [identify] names a record for the todo. *)
Theorem removeTodoFromCache_agrees todoId queryVariables manager (c : Cache) :
  TodoCacheUtils.createTodosCacheManager GET_TODOS
    (Some (default DEFAULT_TODOS_QUERY_VARIABLES queryVariables)) = Ok manager ->
  todos_plain_page c GET_TODOS
    (Some (default DEFAULT_TODOS_QUERY_VARIABLES queryVariables)) ->
  (forall c1 : Cache, identify c1 "Todo" "id" (JString todoId) <> Ok None) ->
  TodoCacheUtils.removeTodoFromCache GET_TODOS DEFAULT_TODOS_QUERY_VARIABLES todoId
    queryVariables c
  = OptimisticCacheManager.removeItem manager (JString todoId) c.
Proof.
  rewrite createTodosCacheManager_returns. intros [= <-] Hshape Hident.
  unfold TodoCacheUtils.removeTodoFromCache, OptimisticCacheManager.removeItem,
    OptimisticCacheManager.executeOperation, readCacheData, writeCacheData,
    OptimisticCacheManager.evictRemoved, OptimisticCacheManager.applyOperation.
  cbn [OptimisticCacheManager.config OptimisticCacheManager.strategy
       OptimisticCacheManager.idField CacheConfig.query CacheConfig.variables
       CacheConfig.queryResultKey CacheConfig.entityName].
  unfold_run. unfold todos_plain_page in Hshape.
  destruct (readQuery c GET_TODOS _) as [[cacheData|]|e]; try reflexivity.
  specialize (Hshape cacheData eq_refl). simpl.
  destruct (cacheData !! "todos") as [[p|s|a]|]; try contradiction; try reflexivity.
  simpl. unfold PaginatedStrategy.remove, with_total, without_identity, other_identity.
  simpl. rewrite Hshape.
  destruct (writeQuery c GET_TODOS _ _) as [c1|e]; [|reflexivity].
  destruct (identify c1 "Todo" "id" (JString todoId)) as [[cacheId|]|e] eqn:Hid;
    try reflexivity.
  exfalso. exact (Hident c1 Hid).
Qed.

End LegacyProperties.

(** ** Eviction and failure, for both managers *)

Section EvictionSummary.
Context {Cache : Type} `{ApolloCache Cache} `{JsRuntime}.

(** X21.  A remove that returns [true] under a configured entity name has
    written the list and then evicted the record that [identify] named on
    the written store: in [OptimisticCacheManager] for every id, in
    [EntityCacheManager] for every truthy id.  Nothing is evicted only when
    [identify] names no record; for a falsy id [EntityCacheManager] stops
    after the write. *)
Theorem remove_evicts_identified_record :
  (forall this id name (c c' : Cache),
     non_empty (CacheConfig.entityName (OptimisticCacheManager.config this)) = Some name ->
     OptimisticCacheManager.executeOperation this (CacheOperation.REMOVE id) c
       = (Ok true, c') ->
     exists c1 cacheData,
       writeQuery c (CacheConfig.query (OptimisticCacheManager.config this))
         (CacheConfig.variables (OptimisticCacheManager.config this)) cacheData = Ok c1 /\
       ((exists cacheId,
           identify c1 name (OptimisticCacheManager.idField this) id = Ok (Some cacheId) /\
           evict c1 cacheId = Ok c') \/
        (identify c1 name (OptimisticCacheManager.idField this) id = Ok None /\ c' = c1))) /\
  (forall this operation config name (c c' : Cache),
     EntityOperation.type operation = REMOVE ->
     EntityCacheManager.entities this !! EntityOperation.entityKey operation = Some config ->
     non_empty (CacheConfig.entityName config) = Some name ->
     EntityCacheManager.executeOperation this operation c = (Ok true, c') ->
     (truthy (EntityOperation.id operation) = true ->
        exists c1 cacheData,
          writeQuery c (CacheConfig.query config) (CacheConfig.variables config) cacheData
            = Ok c1 /\
          ((exists cacheId,
              identify c1 name (default "id" (CacheConfig.idField config))
                (EntityOperation.id operation) = Ok (Some cacheId) /\
              cacheId <> "" /\ evict c1 cacheId = Ok c') \/
           ((forall cacheId,
               identify c1 name (default "id" (CacheConfig.idField config))
                 (EntityOperation.id operation) = Ok (Some cacheId) -> cacheId = "") /\
            c' = c1))) /\
     (truthy (EntityOperation.id operation) = false ->
        exists cacheData,
          writeQuery c (CacheConfig.query config) (CacheConfig.variables config) cacheData
            = Ok c')).
Proof.
  split.
  - intros this id name c c'. apply optimistic_remove_evicts.
  - intros this operation config name c c' Hkind Hconfig Hname Hexec. split.
    + intros Htruthy. exact (entity_remove_evicts _ _ _ _ _ _ Hkind Hconfig Hname Htruthy Hexec).
    + intros Hfalsy. exact (entity_remove_falsy_id_only_writes _ _ _ _ _ Hconfig Hfalsy Hexec).
Qed.


End EvictionSummary.

(** * The sample store *)

Lemma lookup_store_query k v l :
  InMemoryCache.lookup_query k (InMemoryCache.store_query k v l) = Some v.
Proof.
  induction l as [|[k' v'] l IH]; simpl.
  - rewrite decide_True by reflexivity. reflexivity.
  - destruct (decide (k = k')) as [->|Hne]; simpl.
    + rewrite decide_True by reflexivity. reflexivity.
    + rewrite decide_False by exact Hne. exact IH.
Qed.

(** The sample store reads back what is written unless its reads fail. *)
Lemma in_memory_read_after_write (c : InMemoryCache.t) :
  InMemoryCache.failReads c = false -> read_after_write c.
Proof.
  intros Hreads c' query variables cacheData. simpl.
  destruct (InMemoryCache.failWrites c); [discriminate|].
  intros [= <-]. simpl. rewrite Hreads, lookup_store_query. reflexivity.
Qed.

Lemma entity_execute_missing_payload_witness :
  EntityCacheManager.executeOperation (Sample.registry DataStructure.PAGINATED)
    (Sample.removeOperation "todos" JUndefined) Sample.zeroStore
  = (Ok false, Sample.zeroStore).
Proof. apply entity_execute_missing_payload. reflexivity. Defined.

Lemma registerEntity_supported_witness :
  EntityCacheManager.strategies (Sample.registry DataStructure.SIMPLE_LIST) !! "todos"
    = Some simpleListStrategy /\
  EntityCacheManager.registerEntity (Sample.registry DataStructure.SIMPLE_LIST) "todos"
    (Sample.todosConfig DataStructure.SIMPLE_LIST)
  = (Ok tt, Sample.registry DataStructure.SIMPLE_LIST).
Proof.
  destruct (registerEntity_supported EntityCacheManager.new "todos"
              (Sample.todosConfig DataStructure.SIMPLE_LIST) simpleListStrategy eq_refl)
    as (_ & _ & Hstrategy & _ & Hagain & _).
  split; [exact Hstrategy | exact Hagain].
Defined.

Lemma registrations_are_independent_witness :
  EntityCacheManager.executeOperation
    (snd (EntityCacheManager.registerEntity (Sample.registry DataStructure.PAGINATED)
            "users" (Sample.todosConfig "grid")))
    (Sample.removeOperation "todos" (JString "1")) Sample.zeroStore
  = EntityCacheManager.executeOperation (Sample.registry DataStructure.PAGINATED)
      (Sample.removeOperation "todos" (JString "1")) Sample.zeroStore.
Proof.
  destruct (registrations_are_independent (Cache := InMemoryCache.t)
              (Sample.registry DataStructure.PAGINATED) "users" (Sample.todosConfig "grid"))
    as (Hexec & _).
  apply Hexec. discriminate.
Defined.

Lemma optimistic_execute_true_iff_witness :
  let operation := CacheOperation.ADD (Sample.todo (JString "4") "x") None in
  let c := Sample.storeWith (Paginated Sample.threeTodos) [] in
  exists existingData updatedData,
    readCacheData (OptimisticCacheManager.config Sample.todosManager) c
      = (Ok (Some existingData), c) /\
    OptimisticCacheManager.applyOperation Sample.todosManager existingData operation
      = Ok updatedData /\
    writeCacheData (OptimisticCacheManager.config Sample.todosManager) updatedData c
      = (Ok tt,
         snd (OptimisticCacheManager.executeOperation Sample.todosManager operation c)).
Proof.
  cbv zeta.
  apply (proj1 (optimistic_execute_true_iff Sample.todosManager
                  (CacheOperation.ADD (Sample.todo (JString "4") "x") None)
                  (Sample.storeWith (Paginated Sample.threeTodos) []) _ eq_refl)).
  reflexivity.
Defined.

Lemma entity_read_your_writes_witness :
  let operation := Sample.addOperation "todos" (Sample.todo (JString "4") "x") in
  let c := Sample.storeWith (Paginated Sample.threeTodos) [] in
  let c' := snd (EntityCacheManager.executeOperation
                   (Sample.registry DataStructure.PAGINATED) operation c) in
  exists existingData updatedData,
    EntityCacheManager.getCachedData (Sample.registry DataStructure.PAGINATED) "todos" c
      = (Ok (Some existingData), c) /\
    EntityCacheManager.applyOperation paginatedStrategy existingData "id" operation
      = Some (Ok updatedData) /\
    EntityCacheManager.getCachedData (Sample.registry DataStructure.PAGINATED) "todos" c'
      = (Ok (Some updatedData), c').
Proof.
  cbv zeta.
  apply (entity_read_your_writes (Sample.registry DataStructure.PAGINATED)
           (Sample.addOperation "todos" (Sample.todo (JString "4") "x"))
           (Sample.todosConfig DataStructure.PAGINATED) paginatedStrategy "todos"
           (Sample.storeWith (Paginated Sample.threeTodos) [])).
  - apply in_memory_read_after_write. reflexivity.
  - reflexivity.
  - reflexivity.
  - reflexivity.
  - discriminate.
  - reflexivity.
Defined.

Lemma managers_agree_witness :
  EntityCacheManager.executeOperation (Sample.registry DataStructure.PAGINATED)
    (Sample.removeOperation "todos" (num_pos 42)) Sample.fortyTwoStore
  = OptimisticCacheManager.executeOperation Sample.todosManager
      (CacheOperation.REMOVE (num_pos 42)) Sample.fortyTwoStore.
Proof.
  apply (managers_agree EntityCacheManager.new
           (Sample.removeOperation "todos" (num_pos 42))
           (CacheOperation.REMOVE (num_pos 42))
           (Sample.todosConfig DataStructure.PAGINATED) Sample.todosManager
           Sample.fortyTwoStore eq_refl eq_refl).
  intros _. split; [reflexivity|].
  intros c1 typename idField Heq. simpl in Heq. injection Heq as Heq.
  destruct typename; discriminate.
Defined.

Lemma hooks_agree_with_item_methods_witness :
  ContextEntityMutations.removeEntity (Sample.registry DataStructure.PAGINATED) "todos"
    (num_pos 42) Sample.fortyTwoStore
  = OptimisticCacheManager.removeItem Sample.todosManager (num_pos 42) Sample.fortyTwoStore.
Proof.
  destruct (hooks_agree_with_item_methods EntityCacheManager.new "todos"
              (Sample.todosConfig DataStructure.PAGINATED) Sample.todosManager
              Sample.fortyTwoStore eq_refl) as (_ & _ & _ & _ & Hremove).
  apply Hremove; [reflexivity|].
  intros c1 typename idField Heq. simpl in Heq. injection Heq as Heq.
  destruct typename; discriminate.
Defined.

Lemma updateItemField_true_iff_witness :
  let result := OptimisticCacheManager.updateItemField Sample.todosManager num_zero
                  {[ "title" := JString "t" ]} Sample.zeroStore in
  result = (Ok true, snd result) /\
  InMemoryCache.records (snd result) !! "Todo:0" = Some {[ "title" := JString "t" ]}.
Proof.
  cbv zeta. split; [|reflexivity].
  apply (proj2 (updateItemField_true_iff Sample.todosManager num_zero
                  {[ "title" := JString "t" ]} Sample.zeroStore _)).
  exists "Todo", "Todo:0". repeat split; reflexivity.
Defined.

Lemma updateEntityFields_addresses_todo_witness :
  ContextEntityMutations.updateEntityFields (Sample.registry DataStructure.PAGINATED)
    "users" num_zero {[ "title" := JString "t" ]} Sample.zeroStore
  = (Ok false, Sample.zeroStore) /\
  ContextEntityMutations.updateEntityFields (Sample.registry DataStructure.PAGINATED)
    "todos" num_zero {[ "title" := JString "t" ]} Sample.zeroStore
  = ContextEntityMutations.updateEntityFields
      {| EntityCacheManager.entities :=
           <["todos" := retarget (Sample.todosConfig DataStructure.PAGINATED)
                          (Some "User") (Some "uuid")]>
             (EntityCacheManager.entities (Sample.registry DataStructure.PAGINATED));
         EntityCacheManager.strategies :=
           EntityCacheManager.strategies (Sample.registry DataStructure.PAGINATED) |}
      "todos" num_zero {[ "title" := JString "t" ]} Sample.zeroStore.
Proof.
  split.
  - destruct (updateEntityFields_addresses_todo (Cache := InMemoryCache.t)
                (Sample.registry DataStructure.PAGINATED) "users" num_zero
                {[ "title" := JString "t" ]} Sample.zeroStore) as (_ & Hunregistered & _).
    apply Hunregistered. reflexivity.
  - destruct (updateEntityFields_addresses_todo (Cache := InMemoryCache.t)
                (Sample.registry DataStructure.PAGINATED) "todos" num_zero
                {[ "title" := JString "t" ]} Sample.zeroStore) as (_ & _ & Hregistered).
    destruct (Hregistered (Sample.todosConfig DataStructure.PAGINATED) eq_refl)
      as (_ & _ & Hretarget).
    symmetry. apply Hretarget.
Defined.

Lemma refresh_rewrites_what_it_read_witness :
  readQuery (snd (ContextEntityData.refresh Sample.GetTodos None false Sample.zeroStore))
    Sample.GetTodos None
  = readQuery Sample.zeroStore Sample.GetTodos None /\
  ContextEntityData.refresh Sample.GetTodos None false Sample.emptyStore
  = (Ok tt, Sample.emptyStore).
Proof.
  destruct (refresh_rewrites_what_it_read (Cache := InMemoryCache.t)
              Sample.GetTodos None Sample.zeroStore) as (_ & _ & _ & Hsame).
  destruct (refresh_rewrites_what_it_read (Cache := InMemoryCache.t)
              Sample.GetTodos None Sample.emptyStore) as (_ & Hmissing & _).
  split.
  - apply Hsame. apply in_memory_read_after_write. reflexivity.
  - apply Hmissing. left. reflexivity.
Defined.

Lemma handshake_refreshes_once_witness :
  ContextEntityData.run MoreSamples.APOLLO_CACHE_KEY true "todos" false
    [MoreSamples.updateOf "todos"; MoreSamples.updateOf "todos";
     MoreSamples.updateOf "users"; ContextEntityData.StorageEvent (Some "theme");
     ContextEntityData.StorageEvent (Some MoreSamples.APOLLO_CACHE_KEY);
     ContextEntityData.StorageEvent (Some MoreSamples.APOLLO_CACHE_KEY)]
  = (false, 1%nat).
Proof.
  apply (handshake_refreshes_once MoreSamples.APOLLO_CACHE_KEY "todos" false
           (MoreSamples.updateOf "todos")
           [MoreSamples.updateOf "todos"; MoreSamples.updateOf "users";
            ContextEntityData.StorageEvent (Some "theme")]
           [ContextEntityData.StorageEvent (Some MoreSamples.APOLLO_CACHE_KEY)]);
    reflexivity.
Defined.

Lemma addTodoToCache_agrees_witness :
  TodoCacheUtils.addTodoToCache Sample.GetTodos ∅ (Sample.todo (JString "4") "x") None
    MoreSamples.legacyStore
  = OptimisticCacheManager.addItem
      {| OptimisticCacheManager.config :=
           {| CacheConfig.query := Sample.GetTodos;
              CacheConfig.variables := Some ∅;
              CacheConfig.queryResultKey := Some "todos";
              CacheConfig.dataStructure := DataStructure.PAGINATED;
              CacheConfig.entityName := Some "Todo";
              CacheConfig.idField := Some "id" |};
         OptimisticCacheManager.strategy := paginatedStrategy;
         OptimisticCacheManager.idField := "id" |}
      (Sample.todo (JString "4") "x") None MoreSamples.legacyStore.
Proof.
  apply (addTodoToCache_agrees (Cache := InMemoryCache.t) Sample.GetTodos ∅
           (Sample.todo (JString "4") "x") None _ MoreSamples.legacyStore eq_refl).
  intros cacheData Hread. vm_compute in Hread. injection Hread as <-. reflexivity.
Defined.

Lemma removeTodoFromCache_agrees_witness :
  TodoCacheUtils.removeTodoFromCache Sample.GetTodos ∅ "2" None MoreSamples.legacyStore
  = OptimisticCacheManager.removeItem
      {| OptimisticCacheManager.config :=
           {| CacheConfig.query := Sample.GetTodos;
              CacheConfig.variables := Some ∅;
              CacheConfig.queryResultKey := Some "todos";
              CacheConfig.dataStructure := DataStructure.PAGINATED;
              CacheConfig.entityName := Some "Todo";
              CacheConfig.idField := Some "id" |};
         OptimisticCacheManager.strategy := paginatedStrategy;
         OptimisticCacheManager.idField := "id" |}
      (JString "2") MoreSamples.legacyStore.
Proof.
  apply (removeTodoFromCache_agrees (Cache := InMemoryCache.t) Sample.GetTodos ∅
           "2" None _ MoreSamples.legacyStore eq_refl).
  - intros cacheData Hread. vm_compute in Hread. injection Hread as <-. reflexivity.
  - intros c1. discriminate.
Defined.

(** What the legacy remove leaves behind on the sample store. *)
Example removeTodoFromCache_on_sample :
  let result := TodoCacheUtils.removeTodoFromCache Sample.GetTodos ∅ "2" None
                  MoreSamples.legacyStore in
  fst result = Ok true /\
  InMemoryCache.records (snd result) !! "Todo:2" = None /\
  InMemoryCache.queries (snd result)
  = [((Sample.GetTodos, Some ∅),
      {[ "todos" := Paginated (Sample.page [Sample.todo (JString "1") "a";
                                            Sample.todo (JString "3") "c"] 2) ]})].
Proof. vm_compute. repeat split. Qed.

(** On a page that carries its [__typename], the legacy utility writes it
    back and the manager does not. *)
Example legacy_utilities_keep_other_fields :
  let todo4 := Sample.todo (JString "4") "x" in
  let manager :=
    {| OptimisticCacheManager.config :=
         {| CacheConfig.query := Sample.GetTodos;
            CacheConfig.variables := Some ∅;
            CacheConfig.queryResultKey := Some "todos";
            CacheConfig.dataStructure := DataStructure.PAGINATED;
            CacheConfig.entityName := Some "Todo";
            CacheConfig.idField := Some "id" |};
       OptimisticCacheManager.strategy := paginatedStrategy;
       OptimisticCacheManager.idField := "id" |} in
  let legacy := TodoCacheUtils.addTodoToCache Sample.GetTodos ∅ todo4 None
                  MoreSamples.typedStore in
  let managed := OptimisticCacheManager.addItem manager todo4 None
                   MoreSamples.typedStore in
  fst legacy = Ok true /\ fst managed = Ok true /\
  readQuery (snd legacy) Sample.GetTodos (Some ∅)
  = Ok (Some {[ "todos" :=
        Paginated {| data := todo4 :: data Sample.threeTodos;
                     pagination := with_total (pagination Sample.threeTodos) 4;
                     paginated_rest := {[ "__typename" := JString "TodosResponse" ]} |} ]}) /\
  readQuery (snd managed) Sample.GetTodos (Some ∅)
  = Ok (Some {[ "todos" :=
        Paginated {| data := todo4 :: data Sample.threeTodos;
                     pagination := with_total (pagination Sample.threeTodos) 4;
                     paginated_rest := ∅ |} ]}).
Proof. vm_compute. repeat split. Qed.

Lemma remove_evicts_identified_record_witness :
  let c' := snd (OptimisticCacheManager.executeOperation Sample.todosManager
                   (CacheOperation.REMOVE num_zero) Sample.zeroStore) in
  exists c1 cacheData,
    writeQuery Sample.zeroStore Sample.GetTodos None cacheData = Ok c1 /\
    ((exists cacheId,
        identify c1 "Todo" "id" num_zero = Ok (Some cacheId) /\ evict c1 cacheId = Ok c') \/
     (identify c1 "Todo" "id" num_zero = Ok None /\ c' = c1)).
Proof.
  cbv zeta.
  destruct (remove_evicts_identified_record (Cache := InMemoryCache.t)) as [Hoptimistic _].
  apply (Hoptimistic Sample.todosManager num_zero "Todo" Sample.zeroStore); reflexivity.
Defined.


(** * Construction and insertion *)

(** X23.  The constructor of [OptimisticCacheManager] and [registerEntity]
    accept the same configurations, those whose shape is one of the three
    strings of [DataStructure], and bind the same strategy; for any other
    shape both throw the same error.  A constructed manager keeps the
    configuration and takes ['id'] as identity field when none is given. *)
Theorem constructor_matches_registration this entityKey config :
  (forall manager,
     OptimisticCacheManager.new config = Ok manager ->
     OptimisticCacheManager.config manager = config /\
     OptimisticCacheManager.idField manager = default "id" (CacheConfig.idField config) /\
     fst (EntityCacheManager.registerEntity this entityKey config) = Ok tt /\
     EntityCacheManager.strategies
       (snd (EntityCacheManager.registerEntity this entityKey config)) !! entityKey
     = Some (OptimisticCacheManager.strategy manager)) /\
  (forall e,
     OptimisticCacheManager.new config = Throw e ->
     e = unsupported (CacheConfig.dataStructure config) /\
     fst (EntityCacheManager.registerEntity this entityKey config) = Throw e) /\
  ((exists manager, OptimisticCacheManager.new config = Ok manager) <->
   CacheConfig.dataStructure config = DataStructure.PAGINATED \/
   CacheConfig.dataStructure config = DataStructure.SIMPLE_LIST \/
   CacheConfig.dataStructure config = DataStructure.ARRAY).
Proof.
  unfold OptimisticCacheManager.new, EntityCacheManager.registerEntity.
  pose proof (select_strategy_none (CacheConfig.dataStructure config)) as Hnone.
  destruct (select_strategy (CacheConfig.dataStructure config)) as [strategy|] eqn:Hsel.
  - split; [|split].
    + intros manager [= <-]. simpl. repeat split. apply lookup_insert_eq.
    + intros e He. discriminate.
    + split; [|eauto]. intros _.
      destruct (String.eqb_spec (CacheConfig.dataStructure config) DataStructure.PAGINATED);
        [tauto|].
      destruct (String.eqb_spec (CacheConfig.dataStructure config) DataStructure.SIMPLE_LIST);
        [tauto|].
      destruct (String.eqb_spec (CacheConfig.dataStructure config) DataStructure.ARRAY);
        [tauto|].
      assert (Hcontra : Some strategy = None) by (apply Hnone; tauto).
      discriminate.
  - split; [|split].
    + intros manager Hm. discriminate.
    + intros e [= <-]. split; reflexivity.
    + split; [intros [manager Hm]; discriminate|].
      intros Hshape. destruct Hnone as [Hnone _].
      specialize (Hnone eq_refl). tauto.
Qed.

Lemma constructor_matches_registration_witness :
  EntityCacheManager.strategies (Sample.registry DataStructure.PAGINATED) !! "todos"
    = Some (OptimisticCacheManager.strategy Sample.todosManager) /\
  fst (EntityCacheManager.registerEntity EntityCacheManager.new "todos"
         (Sample.todosConfig "grid")) = Throw (unsupported "grid").
Proof.
  destruct (constructor_matches_registration EntityCacheManager.new "todos"
              (Sample.todosConfig DataStructure.PAGINATED)) as (Hok & _ & _).
  destruct (Hok Sample.todosManager eq_refl) as (_ & _ & _ & Hstrategy).
  destruct (constructor_matches_registration EntityCacheManager.new "todos"
              (Sample.todosConfig "grid")) as (_ & Hthrow & _).
  destruct (Hthrow (unsupported "grid") eq_refl) as [_ Hregister].
  split; [exact Hstrategy | exact Hregister].
Defined.

Lemma insert_at_edge position item xs :
  length (insert_at position item xs) = S (length xs) /\
  insert_at position item xs
    !! (match position_or_default position with START => 0%nat | END => length xs end)
    = Some item /\
  forall (i : nat) (e : Entity), xs !! i = Some e ->
    insert_at position item xs
      !! (match position_or_default position with START => S i | END => i end)
    = Some e.
Proof.
  unfold insert_at. destruct (position_or_default position).
  - split; [reflexivity|]. split; [reflexivity|]. intros i e Hi. exact Hi.
  - split; [rewrite length_app; simpl; lia|]. split.
    + rewrite lookup_app_r by lia. rewrite Nat.sub_diag. reflexivity.
    + intros i e Hi. rewrite lookup_app_l; [exact Hi|].
      apply lookup_lt_Some in Hi. exact Hi.
Qed.

(** X24.  [add] makes [data] one longer in every shape, with the new item
    first for [START] (and for an omitted position) and last for [END],
    the elements that were there keeping their order; identities are not
    compared, so an item whose identity is already cached is added all the
    same.  The paginated total becomes [total + 1] as the code computes
    it, which is one more for every total in the exact range
    ([- 2^53 <= total < 2^53]); the other pagination fields stay, as do the
    other fields of a simple list, and the page owns [data] and
    [pagination] only. *)
Theorem add_inserts_at_edge (item : Entity) (position : option Position) :
  let edge (xs : list Entity) :=
    match position_or_default position with START => 0%nat | END => length xs end in
  let shift (i : nat) :=
    match position_or_default position with START => S i | END => i end in
  (forall S : PaginatedData,
     let S' := PaginatedStrategy.add S item position in
     length (data S') = Datatypes.S (length (data S)) /\
     data S' !! edge (data S) = Some item /\
     (forall i e, data S !! i = Some e -> data S' !! shift i = Some e) /\
     pagination S'
       = with_total (pagination S) (number_add (total (pagination S)) 1) /\
     (- exact_limit <= total (pagination S) < exact_limit ->
        pagination S' = with_total (pagination S) (total (pagination S) + 1)) /\
     paginated_rest S' = ∅) /\
  (forall S : SimpleListData,
     let S' := SimpleListStrategy.add S item position in
     length (list_data S') = Datatypes.S (length (list_data S)) /\
     list_data S' !! edge (list_data S) = Some item /\
     (forall i e, list_data S !! i = Some e -> list_data S' !! shift i = Some e) /\
     list_rest S' = list_rest S) /\
  (forall a : list Entity,
     let a' := ArrayStrategy.add a item position in
     length a' = Datatypes.S (length a) /\
     a' !! edge a = Some item /\
     (forall i e, a !! i = Some e -> a' !! shift i = Some e)).
Proof.
  cbv zeta. split; [|split].
  - intros S. destruct (insert_at_edge position item (data S)) as (Hlen & Hedge & Hold).
    split; [exact Hlen|]. split; [exact Hedge|]. split; [exact Hold|].
    split; [reflexivity|]. split; [|reflexivity].
    intros Hrange. simpl. rewrite number_add_exact by lia. reflexivity.
  - intros S. destruct (insert_at_edge position item (list_data S)) as (Hlen & Hedge & Hold).
    split; [exact Hlen|]. split; [exact Hedge|]. split; [exact Hold | reflexivity].
  - intros a. exact (insert_at_edge position item a).
Qed.

Lemma add_inserts_at_edge_witness :
  data (PaginatedStrategy.add Sample.threeTodos (Sample.todo (JString "1") "dup") (Some END))
    !! 3%nat = Some (Sample.todo (JString "1") "dup") /\
  data (PaginatedStrategy.add Sample.threeTodos (Sample.todo (JString "1") "dup") (Some END))
    !! 0%nat = Some (Sample.todo (JString "1") "a") /\
  pagination (PaginatedStrategy.add Sample.threeTodos (Sample.todo (JString "1") "dup")
                (Some END))
  = with_total (pagination Sample.threeTodos) (3 + 1).
Proof.
  destruct (add_inserts_at_edge (Sample.todo (JString "1") "dup") (Some END)) as (Hpage & _ & _).
  destruct (Hpage Sample.threeTodos) as (_ & Hedge & Hold & _ & Hexact & _).
  split; [exact Hedge|]. split.
  - apply (Hold 0%nat (Sample.todo (JString "1") "a")). reflexivity.
  - apply Hexact. vm_compute. split; [discriminate | reflexivity].
Defined.
